(** * micro: server lifecycle and request-pipeline composition

    A shallow embedding of the Go packages [server] (HttpServer: options,
    Start, Stop, Address) and [service] (Service: Endpoints, Start, Stop,
    decorateHandler, initTracer, trace), with the properties of their
    specification stated and settled against the code.

    Conventions.
    - A Go [error] value is [option error]: [None] is [nil].
    - Go [int] is [Z]; the one multiplication the code performs
      (seconds to nanoseconds) has its 64-bit wrap-around written out.
    - A pointer receiver that is mutated becomes explicit state passing.
    - A goroutine is a program counter stored next to the channel it
      blocks on; an unbuffered channel operation is a rendezvous step.
    - A call that can fail to return is an [Outcome]: it returns, blocks
      forever, or panics. *)

From Stdlib Require Import String Ascii List ZArith Lia Bool DecimalString.
Import ListNotations.
Open Scope string_scope.

(** ** Go values shared by both packages *)

Inductive error : Type := Err (msg : string).

Inductive Outcome (A : Type) : Type :=
| Returned (a : A)
| Blocks
| Panics (msg : string).
Arguments Returned {A} a.
Arguments Blocks {A}.
Arguments Panics {A} msg.

Inductive LogEntry : Type :=
| LogInfo (msg : string)
| LogError (msg : string).

(** [fmt.Sprintf("%d", z)] *)
Definition fmt_d (z : Z) : string := NilZero.string_of_int (Z.to_int z).

(** Two's-complement wrap-around of a 64-bit signed integer. *)
Definition wrap64 (z : Z) : Z := (z + 2 ^ 63) mod 2 ^ 64 - 2 ^ 63.

Definition nonempty (s : string) : bool := negb (s =? "").

(** ** Package server *)

Module server.

Record Options : Type := mkOptions {
  Hostname : string;
  Port : Z;
  CertificateFile : string;
  KeyFile : string;
  ShutdownTimeout : Z
}.

(** [type Option func(o *Options)]: an update of the options under
    construction. *)
Definition Option : Type := Options -> Options.

(** [var options Options]: the zero value. *)
Definition zeroOptions : Options := mkOptions "" 0 "" "" 0.

(** The four option constructors; Go names them like the fields they set. *)
Definition optHostname (h : string) : Option :=
  fun o => mkOptions h (Port o) (CertificateFile o) (KeyFile o) (ShutdownTimeout o).

Definition optPort (p : Z) : Option :=
  fun o => mkOptions (Hostname o) p (CertificateFile o) (KeyFile o) (ShutdownTimeout o).

Definition optTLS (certFile keyFile : string) : Option :=
  fun o => mkOptions (Hostname o) (Port o) certFile keyFile (ShutdownTimeout o).

Definition optShutdownTimeout (t : Z) : Option :=
  fun o => mkOptions (Hostname o) (Port o) (CertificateFile o) (KeyFile o) t.

(** [for _, o := range opts { o(&options) }] *)
Definition applyOptions (opts : list Option) (o : Options) : Options :=
  fold_left (fun acc f => f acc) opts o.

(** The three [if] statements of NewHttpServer, in source order. *)
Definition defaultHostname (o : Options) : Options :=
  if Hostname o =? "" then optHostname "localhost" o else o.

Definition defaultPort (o : Options) : Options :=
  if (Port o <? 0)%Z then optPort 0 o else o.

Definition defaultShutdownTimeout (o : Options) : Options :=
  if (ShutdownTimeout o <=? 0)%Z then optShutdownTimeout 5 o else o.

(** [net.Listener], as far as the server looks at it. *)
Record Listener : Type := mkListener { Addr : string }.

(** The two ways the serve goroutine enters the transport. *)
Inductive ServeCall : Type :=
| ServeTLS (l : Listener) (certFile keyFile : string)
| Serve (l : Listener).

(** Program counter of the drain goroutine launched by Start. *)
Inductive DrainPc : Type :=
| AtRecvExit                       (* ch := <-hs.exit *)
| AtShutdown                       (* err = hs.srv.Shutdown(ctxShutDown) *)
| AtSendReply (err : option error) (* ch <- nil *)
| Exited.

(** Program counter of a caller inside Stop. *)
Inductive StopPc : Type :=
| AtSendExit                       (* hs.exit <- ch *)
| AtRecvReply                      (* err = <-ch *)
| AtReturn (err : option error).

(** What the operating system and the transport answer. *)
Record Env : Type := mkEnv {
  listen : string -> error + Listener;      (* net.Listen("tcp", addr) *)
  shutdown : Z -> option error              (* srv.Shutdown under a deadline in ns *)
}.

Section WithHandler.

Context {H : Type}.

(** [http.Server{Handler: h}] *)
Record Transport : Type := mkTransport {
  Handler : H;
  closed : bool
}.

(** The struct, without the mutex. [serving] lists the serve calls that
    Start has made, as a history: a call stays listed after its loop has
    returned. [drains] are the drain goroutines Start launched, [journal]
    what was sent to the logger. *)
Record HttpServer : Type := mkHttpServer {
  srv : option Transport;
  handler : H;
  address : string;
  options : Options;
  serving : list ServeCall;
  drains : list DrainPc;
  journal : list LogEntry
}.

Definition NewHttpServer (h : H) (opts : list Option) : HttpServer :=
  let options := applyOptions opts zeroOptions in
  let options := defaultHostname options in
  let options := defaultPort options in
  let options := defaultShutdownTimeout options in
  {| srv := None;
     handler := h;
     address := Hostname options ++ ":" ++ fmt_d (Port options);
     options := options;
     serving := [];
     drains := [];
     journal := [] |}.

Definition Address (hs : HttpServer) : string := address hs.

Definition String (hs : HttpServer) : string := "http://" ++ Address hs.

(** The branch taken by the serve goroutine. *)
Definition serveCall (o : Options) (l : Listener) : ServeCall :=
  if nonempty (CertificateFile o) && nonempty (KeyFile o)
  then ServeTLS l (CertificateFile o) (KeyFile o)
  else Serve l.

Definition Start (env : Env) (hs : HttpServer) : option error * HttpServer :=
  match listen env (address hs) with
  | inl err => (Some err, hs)
  | inr l =>
      let hs1 :=
        {| srv := srv hs; handler := handler hs; address := Addr l;
           options := options hs; serving := serving hs; drains := drains hs;
           journal := journal hs |} in
      (None,
       {| srv := Some (mkTransport (handler hs1) false);
          handler := handler hs1;
          address := address hs1;
          options := options hs1;
          serving := (serving hs1 ++ [serveCall (options hs1) l])%list;
          drains := (drains hs1 ++ [AtRecvExit])%list;
          journal := (journal hs1 ++
            [LogInfo ("Starting server. Listening at " ++ String hs1)])%list |})
  end.

(** [time.Duration(hs.options.ShutdownTimeout) * time.Second], in ns. *)
Definition drainDeadline (o : Options) : Z :=
  wrap64 (ShutdownTimeout o * 1000000000).

(** *** The rendezvous between Stop and the drain goroutine *)

Record Config : Type := mkConfig {
  caller : StopPc;
  runtime : HttpServer
}.

Definition withRuntime (hs : HttpServer) (t : option Transport)
    (ds : list DrainPc) (j : list LogEntry) : HttpServer :=
  {| srv := t; handler := handler hs; address := address hs;
     options := options hs; serving := serving hs; drains := ds;
     journal := j |}.

(** Hand the value sent on [hs.exit] to the first goroutine receiving
    on it. *)
Fixpoint receiveExit (ds : list DrainPc) : option (list DrainPc) :=
  match ds with
  | [] => None
  | AtRecvExit :: rest => Some (AtShutdown :: rest)
  | d :: rest =>
      match receiveExit rest with
      | Some rest' => Some (d :: rest')
      | None => None
      end
  end.

(** The goroutine holding the reply channel runs Shutdown. *)
Fixpoint runShutdown (err : option error) (ds : list DrainPc)
    : option (list DrainPc) :=
  match ds with
  | [] => None
  | AtShutdown :: rest => Some (AtSendReply err :: rest)
  | d :: rest =>
      match runShutdown err rest with
      | Some rest' => Some (d :: rest')
      | None => None
      end
  end.

(** The goroutine holding the reply channel sends; the value it sends
    is the literal [nil] of the source, whatever [err] it holds. *)
Fixpoint sendReply (ds : list DrainPc)
    : option (option error * list DrainPc) :=
  match ds with
  | [] => None
  | AtSendReply _ :: rest => Some (None, Exited :: rest)
  | d :: rest =>
      match sendReply rest with
      | Some (v, rest') => Some (v, d :: rest')
      | None => None
      end
  end.

Definition closeTransport (t : option Transport) : option Transport :=
  match t with
  | Some tr => Some (mkTransport (Handler tr) true)
  | None => None
  end.

(** One step of the system made of the caller of Stop and the drain
    goroutines; [None] when no goroutine can move. *)
Definition step (env : Env) (c : Config) : option Config :=
  let hs := runtime c in
  match caller c with
  | AtReturn _ => None
  | AtSendExit =>
      match receiveExit (drains hs) with
      | Some ds => Some (mkConfig AtRecvReply (withRuntime hs (srv hs) ds (journal hs)))
      | None => None
      end
  | AtRecvReply =>
      let err := shutdown env (drainDeadline (options hs)) in
      match runShutdown err (drains hs) with
      | Some ds =>
          let j := match err with
                   | Some (Err m) =>
                       (journal hs ++ [LogError ("Server Shutdown Failed:" ++ m)])%list
                   | None => journal hs
                   end in
          Some (mkConfig AtRecvReply (withRuntime hs (closeTransport (srv hs)) ds j))
      | None =>
          match sendReply (drains hs) with
          | Some (v, ds) =>
              Some (mkConfig (AtReturn v) (withRuntime hs (srv hs) ds (journal hs)))
          | None => None
          end
      end
  end.

(** The goroutines that hold a reply channel and have not run Shutdown. *)
Definition pending (ds : list DrainPc) : nat :=
  length (filter (fun d => match d with AtShutdown => true | _ => false end) ds).

(** A bound on the number of steps left before the caller returns. *)
Definition distance (c : Config) : nat :=
  match caller c with
  | AtSendExit => 3 + pending (drains (runtime c))
  | AtRecvReply => 1 + pending (drains (runtime c))
  | AtReturn _ => 0
  end.

(** Run until the caller returns or nothing can move. *)
Fixpoint exec (fuel : nat) (env : Env) (c : Config)
    : option (Outcome (option error) * HttpServer) :=
  match caller c with
  | AtReturn err =>
      let hs := runtime c in
      let j := match err with
               | None => (journal hs ++ [LogInfo "Stopped server."])%list
               | Some _ => journal hs
               end in
      Some (Returned err, withRuntime hs (srv hs) (drains hs) j)
  | _ =>
      match step env c with
      | None => Some (Blocks, runtime c)
      | Some c' =>
          match fuel with
          | O => None
          | S fuel' => exec fuel' env c'
          end
      end
  end.

(** Stop. The fuel bounds the number of steps between the send on
    [hs.exit] and the return, so the last branch is never taken (lemma
    [Stop_fuel]). *)
Definition Stop (env : Env) (hs : HttpServer)
    : Outcome (option error) * HttpServer :=
  let hs0 := withRuntime hs (srv hs) (drains hs)
               (journal hs ++ [LogInfo "Stopping server"])%list in
  match exec (3 + length (drains hs)) env (mkConfig AtSendExit hs0) with
  | Some r => r
  | None => (Blocks, hs0)
  end.

(** Stop called through a [*HttpServer] that may be nil: the first
    statement that touches the receiver is the send on [hs.exit]. *)
Definition StopPtr (env : Env) (p : option HttpServer)
    : Outcome (option error) * option HttpServer :=
  match p with
  | None => (Panics "invalid memory address or nil pointer dereference", None)
  | Some hs => let (o, hs') := Stop env hs in (o, Some hs')
  end.

End WithHandler.

Arguments Transport H : clear implicits.
Arguments HttpServer H : clear implicits.
Arguments Config H : clear implicits.

End server.

(** ** Contexts, spans and the tracer-provider *)

Module sdktrace.

Inductive Sampler : Type := AlwaysSample | NeverSample.

Inductive SpanExporter : Type := StdoutExporter | NamedExporter (name : string).

(** A provider is an allocated object: [provId] tells two of them apart. *)
Record TracerProvider : Type := mkTracerProvider {
  provId : nat;
  provSampler : Sampler;
  provExporter : SpanExporter;
  provResource : list (string * string)
}.

Record Span : Type := mkSpan {
  spanProvider : nat;
  spanTracer : string;
  spanName : string
}.

End sdktrace.

(** [context.Context]: the background context, a context supplied by the
    caller, or a context carrying a span. *)
Inductive GoContext : Type :=
| Background
| Supplied (name : string)
| WithSpan (parent : GoContext) (span : sdktrace.Span).

(** ** net/http as the handlers see it *)

Module http.

Record Request : Type := mkRequest {
  Method : string;
  URL : string;
  RequestURI : string;
  Host : string;
  Scheme : string;
  Ctx : GoContext
}.

(** [r.WithContext(ctx)] *)
Definition WithContext (r : Request) (ctx : GoContext) : Request :=
  mkRequest (Method r) (URL r) (RequestURI r) (Host r) (Scheme r) ctx.

(** The response as written so far. *)
Record Response : Type := mkResponse {
  wroteHeader : bool;
  status : Z;
  body : string
}.

Definition emptyResponse : Response := mkResponse false 0 "".

(** [w.WriteHeader(code)]: only the first call counts. *)
Definition WriteHeader (code : Z) (w : Response) : Response :=
  if wroteHeader w then w else mkResponse true code (body w).

(** [w.Write(b)]: an implicit [WriteHeader(200)] precedes the first write. *)
Definition Write (b : string) (w : Response) : Response :=
  let w1 := WriteHeader 200 w in
  mkResponse (wroteHeader w1) (status w1) (body w1 ++ b).

(** What the tracing backend is asked to do. *)
Inductive TraceEvent : Type :=
| SpanStart (s : sdktrace.Span) (parent : GoContext)
| SetAttributes (s : sdktrace.Span) (attrs : list (string * string))
| SpanEnd (s : sdktrace.Span).

(** Everything a handler can act on while it serves one request. *)
Record Exchange : Type := mkExchange {
  w : Response;
  spans : list TraceEvent
}.

Definition onResponse (f : Response -> Response) (x : Exchange) : Exchange :=
  mkExchange (f (w x)) (spans x).

Definition emit (e : TraceEvent) (x : Exchange) : Exchange :=
  mkExchange (w x) (spans x ++ [e])%list.

(** [ServeHTTP(w, r)] *)
Definition Handler : Type := Request -> Exchange -> Exchange.

End http.

(** ** Package service: handlers *)

Module service.

Definition EndpointDecoratorType : Type := N.
Definition Before : EndpointDecoratorType := 0%N.
Definition After : EndpointDecoratorType := 1%N.

Record EndpointDecorator : Type := mkEndpointDecorator {
  Type_ : EndpointDecoratorType;
  DecoratorFunc : http.Handler
}.

Definition BeforeDecorator (df : http.Handler) : EndpointDecorator :=
  mkEndpointDecorator Before df.

Definition AfterDecorator (df : http.Handler) : EndpointDecorator :=
  mkEndpointDecorator After df.

Record Endpoint : Type := mkEndpoint {
  Name : string;
  Method : string;
  URI : string;
  HandlerFunc : http.Handler;
  Decorators : list EndpointDecorator
}.

Definition decorateHandler (h : http.Handler) (ed : EndpointDecorator)
    : http.Handler :=
  fun r x =>
    let x1 := if (Type_ ed =? Before)%N then DecoratorFunc ed r x else x in
    let x2 := h r x1 in
    if (Type_ ed =? After)%N then DecoratorFunc ed r x2 else x2.

(** The inner loop of Endpoints:
    [for _, d := range ep.Decorators { h = decorateHandler(h, d) }] *)
Definition decorateAll (h : http.Handler) (ds : list EndpointDecorator)
    : http.Handler :=
  fold_left decorateHandler ds h.

Definition trace (h : http.Handler) (tp : sdktrace.TracerProvider)
    (tracerName spanName : string) : http.Handler :=
  fun r x =>
    let span := sdktrace.mkSpan (sdktrace.provId tp) tracerName spanName in
    let ctx := WithSpan (http.Ctx r) span in
    let x1 := http.emit (http.SpanStart span (http.Ctx r)) x in
    let x2 := http.emit
                (http.SetAttributes span
                   [("http.method", http.Method r);
                    ("http.url", http.URL r);
                    ("http.target", http.RequestURI r);
                    ("http.host", http.Host r);
                    ("http.scheme", http.Scheme r)]) x1 in
    let sr := http.WithContext r ctx in
    let x3 := h sr x2 in
    http.emit (http.SpanEnd span) x3.

(** The routing capability: the registrations made with
    [Method(method, pattern, handler)], in order. The router is taken to
    accept every registration; one that it refuses (it panics) is not
    part of this model. *)
Record Route : Type := mkRoute {
  routeMethod : string;
  routePattern : string;
  routeHandler : http.Handler
}.

Definition Router : Type := list Route.

Definition NewChiHandler : Router := [].

Definition registerMethod (method pattern : string) (h : http.Handler)
    (rt : Router) : Router :=
  (rt ++ [mkRoute method pattern h])%list.

(** ** Package service: the orchestrator *)

Inductive Phase : Type :=
| BeforeStartPhase
| AfterStartPhase
| BeforeStopPhase
| AfterStopPhase.

(** The calls a Service makes, in the order it makes them. *)
Inductive Event : Type :=
| HookCalled (p : Phase) (i : nat) (res : option error)
| ServerCreated (addr : string)
| ServerStart (res : option error)
| ServerStop (res : Outcome (option error))
| SignalsNotified
| WatcherSpawned
| ProviderCreated (id : nat)
| ProviderShutdown (id : nat) (ctx : option GoContext) (res : option error).

(** What the collaborators of a Service answer. *)
Record Env : Type := mkEnv {
  net : server.Env;
  providerShutdown : sdktrace.TracerProvider -> option GoContext -> option error
}.

Section WithUser.

(** The state the lifecycle hooks of the caller close over. *)
Variable U : Type.

(** [func() error] *)
Definition Hook : Type := U -> U * option error.

Record Options : Type := mkOptions {
  BeforeStart : list Hook;
  BeforeStop : list Hook;
  AfterStart : list Hook;
  AfterStop : list Hook;
  Port : Z;
  CertificateFile : string;
  KeyFile : string;
  Context : option GoContext;
  Signal : bool;
  Sampler : option sdktrace.Sampler;
  Exporter : option sdktrace.SpanExporter
}.

Definition Option : Type := Options -> Options.

Definition zeroOptions : Options :=
  mkOptions [] [] [] [] 0 "" "" None false None None.

Definition optBeforeStart (fn : Hook) : Option :=
  fun o => mkOptions (BeforeStart o ++ [fn])%list (BeforeStop o) (AfterStart o)
             (AfterStop o) (Port o) (CertificateFile o) (KeyFile o) (Context o)
             (Signal o) (Sampler o) (Exporter o).

Definition optBeforeStop (fn : Hook) : Option :=
  fun o => mkOptions (BeforeStart o) (BeforeStop o ++ [fn])%list (AfterStart o)
             (AfterStop o) (Port o) (CertificateFile o) (KeyFile o) (Context o)
             (Signal o) (Sampler o) (Exporter o).

Definition optAfterStart (fn : Hook) : Option :=
  fun o => mkOptions (BeforeStart o) (BeforeStop o) (AfterStart o ++ [fn])%list
             (AfterStop o) (Port o) (CertificateFile o) (KeyFile o) (Context o)
             (Signal o) (Sampler o) (Exporter o).

Definition optAfterStop (fn : Hook) : Option :=
  fun o => mkOptions (BeforeStart o) (BeforeStop o) (AfterStart o)
             (AfterStop o ++ [fn])%list (Port o) (CertificateFile o) (KeyFile o)
             (Context o) (Signal o) (Sampler o) (Exporter o).

Definition optPort (p : Z) : Option :=
  fun o => mkOptions (BeforeStart o) (BeforeStop o) (AfterStart o) (AfterStop o)
             p (CertificateFile o) (KeyFile o) (Context o) (Signal o)
             (Sampler o) (Exporter o).

Definition optTLS (certFile keyFile : string) : Option :=
  fun o => mkOptions (BeforeStart o) (BeforeStop o) (AfterStart o) (AfterStop o)
             (Port o) certFile keyFile (Context o) (Signal o)
             (Sampler o) (Exporter o).

Definition optContext (ctx : option GoContext) : Option :=
  fun o => mkOptions (BeforeStart o) (BeforeStop o) (AfterStart o) (AfterStop o)
             (Port o) (CertificateFile o) (KeyFile o) ctx (Signal o)
             (Sampler o) (Exporter o).

Definition optTracing (s : option sdktrace.Sampler)
    (e : option sdktrace.SpanExporter) : Option :=
  fun o => mkOptions (BeforeStart o) (BeforeStop o) (AfterStart o) (AfterStop o)
             (Port o) (CertificateFile o) (KeyFile o) (Context o) (Signal o)
             s e.

Record Service : Type := mkService {
  name : string;
  version : string;
  opts : Options;
  server : option (server.HttpServer Router);
  handler : Router;
  traceProvider : option sdktrace.TracerProvider
}.

Definition NewService (name version : string) : Service :=
  mkService name version zeroOptions None NewChiHandler None.

Definition Init (options : list Option) (s : Service) : Service :=
  let o := fold_left (fun acc f => f acc) options zeroOptions in
  let o := match Context o with
           | None => optContext (Some Background) o
           | Some _ => o
           end in
  mkService (name s) (version s) o (server s) (handler s) (traceProvider s).

(** The receiver, the state of the hooks, the calls made so far, the
    number of providers constructed so far and the process-wide provider. *)
Record State : Type := mkState {
  self : Service;
  user : U;
  events : list Event;
  providers : nat;
  globalProvider : option sdktrace.TracerProvider
}.

Definition M (A : Type) : Type := State -> Outcome A * State.

Definition ret {A : Type} (a : A) : M A := fun st => (Returned a, st).

Definition bind {A B : Type} (c : M A) (k : A -> M B) : M B :=
  fun st =>
    match c st with
    | (Returned a, st') => k a st'
    | (Blocks, st') => (Blocks, st')
    | (Panics m, st') => (Panics m, st')
    end.

(** [if err := c; err != nil { return err }; k] *)
Definition orReturn (c k : M (option error)) : M (option error) :=
  bind c (fun e => match e with Some _ => ret e | None => k end).

Notation "x <- c ;; k" := (bind c (fun x => k))
  (at level 61, c at next level, right associativity).
Notation "c ;;! k" := (orReturn c k) (at level 61, right associativity).

Definition getSelf : M Service := fun st => (Returned (self st), st).

Definition setSelf (s : Service) : M unit :=
  fun st => (Returned tt,
             mkState s (user st) (events st) (providers st) (globalProvider st)).

Definition record (e : Event) : M unit :=
  fun st => (Returned tt,
             mkState (self st) (user st) (events st ++ [e])%list (providers st)
               (globalProvider st)).

Definition callHook (p : Phase) (i : nat) (fn : Hook) : M (option error) :=
  fun st =>
    let (u, res) := fn (user st) in
    (Returned res,
     mkState (self st) u (events st ++ [HookCalled p i res])%list (providers st)
       (globalProvider st)).

(** [for _, fn := range hooks { if err := fn(); err != nil { return err } }] *)
Fixpoint runHooks (p : Phase) (i : nat) (hooks : list Hook) : M (option error) :=
  match hooks with
  | [] => ret None
  | fn :: rest => callHook p i fn ;;! runHooks p (S i) rest
  end.

Definition initTracer (name version : string) (sampler : sdktrace.Sampler)
    (exporter : sdktrace.SpanExporter)
    : M (sdktrace.TracerProvider * option error) :=
  fun st =>
    let tp := sdktrace.mkTracerProvider (providers st) sampler exporter
                [("service.name", name)] in
    (Returned (tp, None),
     mkState (self st) (user st)
       (events st ++ [ProviderCreated (sdktrace.provId tp)])%list
       (S (providers st)) (Some tp)).

Definition setTraceProvider (tp : sdktrace.TracerProvider) : M unit :=
  s <- getSelf ;;
  setSelf (mkService (name s) (version s) (opts s) (server s) (handler s) (Some tp)).

Definition register (method pattern : string) (h : http.Handler) : M unit :=
  s <- getSelf ;;
  setSelf (mkService (name s) (version s) (opts s) (server s)
             (registerMethod method pattern h (handler s)) (traceProvider s)).

Fixpoint Endpoints (endpoints : list Endpoint) : M (option error) :=
  match endpoints with
  | [] => ret None
  | ep :: rest =>
      let h := decorateAll (HandlerFunc ep) (Decorators ep) in
      s <- getSelf ;;
      match Sampler (opts s), Exporter (opts s) with
      | Some sampler, Some exporter =>
          r <- initTracer (name s) (version s) sampler exporter ;;
          match r with
          | (_, Some err) => ret (Some err)
          | (tp, None) =>
              _ <- setTraceProvider tp ;;
              _ <- register (Method ep) (URI ep) (trace h tp (name s) (Name ep)) ;;
              Endpoints rest
          end
      | _, _ =>
          _ <- register (Method ep) (URI ep) h ;;
          Endpoints rest
      end
  end.

Definition setServer (p : option (server.HttpServer Router)) : M unit :=
  s <- getSelf ;;
  setSelf (mkService (name s) (version s) (opts s) p (handler s) (traceProvider s)).

(** [s.server = server.NewHttpServer(...); s.server.Start()] *)
Definition startServer (env : Env) : M (option error) :=
  s <- getSelf ;;
  let hs := server.NewHttpServer (handler s)
              [server.optPort (Port (opts s));
               server.optTLS (CertificateFile (opts s)) (KeyFile (opts s))] in
  _ <- record (ServerCreated (server.Address hs)) ;;
  let (err, hs') := server.Start (net env) hs in
  _ <- setServer (Some hs') ;;
  _ <- record (ServerStart err) ;;
  ret err.

(** The tail of Start: signal registration and the spawning of the
    watcher goroutine, which sleeps until a signal or the end of the
    context. What the goroutine does when it wakes, a Stop of its own, is
    not part of this model: a statement about what follows Start is about
    a run in which the watcher has not fired. *)
Definition watch : M (option error) :=
  s <- getSelf ;;
  _ <- (if Signal (opts s) then record SignalsNotified else ret tt) ;;
  _ <- record WatcherSpawned ;;
  ret None.

Definition Start (env : Env) : M (option error) :=
  s <- getSelf ;;
  runHooks BeforeStartPhase 0 (BeforeStart (opts s)) ;;!
  startServer env ;;!
  runHooks AfterStartPhase 0 (AfterStart (opts s)) ;;!
  watch.

(** [s.Server().Stop()], for any behaviour of the server's Stop. *)
Definition stopServer
    (serverStop : option (server.HttpServer Router) ->
                  Outcome (option error) * option (server.HttpServer Router))
    : M (option error) :=
  s <- getSelf ;;
  let (o, p) := serverStop (server s) in
  _ <- setServer p ;;
  _ <- record (ServerStop o) ;;
  fun st => (o, st).

Definition shutdownProvider (env : Env) : M (option error) :=
  s <- getSelf ;;
  match traceProvider s with
  | Some tp =>
      let res := providerShutdown env tp (Context (opts s)) in
      _ <- record (ProviderShutdown (sdktrace.provId tp) (Context (opts s)) res) ;;
      ret res
  | None => ret None
  end.

(** Service.Stop, with the call into package server as a parameter. *)
Definition StopWith
    (serverStop : option (server.HttpServer Router) ->
                  Outcome (option error) * option (server.HttpServer Router))
    (env : Env) : M (option error) :=
  s <- getSelf ;;
  runHooks BeforeStopPhase 0 (BeforeStop (opts s)) ;;!
  stopServer serverStop ;;!
  runHooks AfterStopPhase 0 (AfterStop (opts s)) ;;!
  shutdownProvider env.

(** Service.Stop. *)
Definition Stop (env : Env) : M (option error) :=
  StopWith (server.StopPtr (net env)) env.

(** *** Vocabulary for the statements about hooks *)

(** The effect of a list of hooks run one after the other, nothing
    undone. *)
Definition applyHooks (hooks : list Hook) (u : U) : U :=
  fold_left (fun acc fn => fst (fn acc)) hooks u.

(** Every hook of the list, run in order from [u], returns nil. *)
Definition passes (hooks : list Hook) (u : U) : Prop :=
  forall j fn, nth_error hooks j = Some fn ->
    snd (fn (applyHooks (firstn j hooks) u)) = None.

(** Hook [k] is the first one that fails, with error [e]. *)
Definition failsAt (hooks : list Hook) (u : U) (k : nat) (e : error) : Prop :=
  passes (firstn k hooks) u /\
  exists fn, nth_error hooks k = Some fn /\
    snd (fn (applyHooks (firstn k hooks) u)) = Some e.

(** The calls of hooks [i], ..., [i + n - 1] of a phase, all successful. *)
Definition okCalls (p : Phase) (i n : nat) : list Event :=
  map (fun k => HookCalled p k None) (seq i n).

(** What one pass over the hooks of a phase, numbered from [i] and
    started in [st], leaves behind: either all of them were called and
    passed, or they were called up to the first failing one. *)
Definition hooksRan (p : Phase) (i : nat) (hooks : list Hook)
    (st st' : State) (res : option error) : Prop :=
  self st' = self st
  /\ providers st' = providers st
  /\ globalProvider st' = globalProvider st
  /\ ((res = None
       /\ passes hooks (user st)
       /\ events st' = (events st ++ okCalls p i (length hooks))%list
       /\ user st' = applyHooks hooks (user st))
      \/ (exists k e,
            res = Some e
            /\ failsAt hooks (user st) k e
            /\ events st'
               = (events st ++ okCalls p i k
                  ++ [HookCalled p (i + k) (Some e)])%list
            /\ user st' = applyHooks (firstn (S k) hooks) (user st))).

End WithUser.

Arguments mkOptions {U}.
Arguments BeforeStart {U}.
Arguments BeforeStop {U}.
Arguments AfterStart {U}.
Arguments AfterStop {U}.
Arguments Port {U}.
Arguments CertificateFile {U}.
Arguments KeyFile {U}.
Arguments Context {U}.
Arguments Signal {U}.
Arguments Sampler {U}.
Arguments Exporter {U}.
Arguments zeroOptions {U}.
Arguments optBeforeStart {U}.
Arguments optBeforeStop {U}.
Arguments optAfterStart {U}.
Arguments optAfterStop {U}.
Arguments optPort {U}.
Arguments optTLS {U}.
Arguments optContext {U}.
Arguments optTracing {U}.
Arguments mkService {U}.
Arguments name {U}.
Arguments version {U}.
Arguments opts {U}.
Arguments server {U}.
Arguments handler {U}.
Arguments traceProvider {U}.
Arguments NewService {U}.
Arguments Init {U}.
Arguments mkState {U}.
Arguments self {U}.
Arguments user {U}.
Arguments events {U}.
Arguments providers {U}.
Arguments globalProvider {U}.
Arguments ret {U A}.
Arguments bind {U A B}.
Arguments orReturn {U}.
Arguments callHook {U}.
Arguments runHooks {U}.
Arguments initTracer {U}.
Arguments Endpoints {U}.
Arguments startServer {U}.
Arguments watch {U}.
Arguments Start {U}.
Arguments stopServer {U}.
Arguments shutdownProvider {U}.
Arguments StopWith {U}.
Arguments Stop {U}.
Arguments applyHooks {U}.
Arguments passes {U}.
Arguments failsAt {U}.
Arguments hooksRan {U}.

(** Composition of side effects, first element first. *)
Definition runAll (fs : list http.Handler) : http.Handler :=
  fun r x => fold_left (fun acc f => f r acc) fs x.

Definition befores (ds : list EndpointDecorator) : list http.Handler :=
  map DecoratorFunc (filter (fun d => (Type_ d =? Before)%N) ds).

Definition afters (ds : list EndpointDecorator) : list http.Handler :=
  map DecoratorFunc (filter (fun d => (Type_ d =? After)%N) ds).

(** A handler whose response depends neither on the context of the
    request nor on what the tracing backend has recorded. *)
Definition contextBlind (h : http.Handler) : Prop :=
  forall r ctx x l,
    http.w (h (http.WithContext r ctx) (http.mkExchange (http.w x) l))
    = http.w (h r x).

End service.

(** ** Concrete inputs *)

Module sample.

Definition listener : server.Listener := server.mkListener "127.0.0.1:43211".

(** The port is free and the drain runs into its deadline. *)
Definition slowDrain : server.Env :=
  server.mkEnv (fun _ => inr listener)
    (fun _ => Some (Err "context deadline exceeded")).

(** The port is free and the drain completes in time. *)
Definition quiet : server.Env :=
  server.mkEnv (fun _ => inr listener) (fun _ => None).

(** The port is taken. *)
Definition busy : server.Env :=
  server.mkEnv (fun _ => inl (Err "bind: address already in use"))
    (fun _ => None).

Definition request : http.Request :=
  http.mkRequest "GET" "/" "/" "localhost" "http" Background.

Definition fresh : http.Exchange := http.mkExchange http.emptyResponse [].

(** [func(w, r) { w.Write([]byte(s)) }] *)
Definition say (s : string) : http.Handler :=
  fun _ x => http.onResponse (http.Write s) x.

(** A handler that answers with the name of the span found in the
    context of its request. *)
Definition spanEcho : http.Handler :=
  fun r x =>
    match http.Ctx r with
    | WithSpan _ s => http.onResponse (http.Write (sdktrace.spanName s)) x
    | _ => http.onResponse (http.Write "no span") x
    end.

Definition ordered : service.Endpoint :=
  service.mkEndpoint "ordered" "GET" "/" (say "H")
    [service.BeforeDecorator (say "1"); service.BeforeDecorator (say "2");
     service.AfterDecorator (say "a"); service.AfterDecorator (say "b")].

(** The endpoint of the service test. *)
Definition getRoot : service.Endpoint :=
  service.mkEndpoint "getRoot" "GET" "/" (say "World")
    [service.BeforeDecorator (say "Hello ");
     service.AfterDecorator
       (fun _ x => http.onResponse (http.WriteHeader 200)
                     (http.onResponse (http.Write "!") x))].

Definition provider : sdktrace.TracerProvider :=
  sdktrace.mkTracerProvider 0 sdktrace.AlwaysSample sdktrace.StdoutExporter
    [("service.name", "test")].

(** The hook of the service test: count the calls. *)
Definition count : service.Hook nat := fun n => (S n, None).

Definition failing (msg : string) : service.Hook nat :=
  fun n => (S n, Some (Err msg)).

Definition env (net : server.Env) : service.Env :=
  service.mkEnv net (fun _ _ => None).

(** A service configured by Init, before any other call. *)
Definition configured (options : list (service.Option nat))
    : service.State nat :=
  service.mkState (service.Init options (service.NewService "test" "v0.1.0"))
    0 [] 0 None.

Definition traced : list (service.Option nat) :=
  [service.optTracing (Some sdktrace.AlwaysSample)
     (Some sdktrace.StdoutExporter)].

Definition counting : list (service.Option nat) :=
  [service.optBeforeStart count; service.optAfterStart count;
   service.optBeforeStop count; service.optAfterStop count].

End sample.

(** ** Vocabulary for the properties of the goroutines, the handlers
    and the options *)

(** A drain goroutine that is not in the middle of a shutdown: it waits
    on [hs.exit] or it has exited. *)
Definition atRest (d : server.DrainPc) : bool :=
  match d with
  | server.AtRecvExit | server.Exited => true
  | _ => false
  end.

Definition isWaiting (d : server.DrainPc) : bool :=
  match d with
  | server.AtRecvExit => true
  | _ => false
  end.

(** No Stop is in flight. *)
Definition quiescent (ds : list server.DrainPc) : Prop :=
  forallb atRest ds = true.

(** The drain goroutines that a Stop can still meet. *)
Definition waiting (ds : list server.DrainPc) : nat :=
  length (filter isWaiting ds).

(** A handler that asks nothing of the tracing backend. *)
Definition quiet (h : http.Handler) : Prop :=
  forall r x, http.spans (h r x) = http.spans x.

(** The decorator types that decorateHandler looks for. *)
Definition knownType (d : service.EndpointDecorator) : bool :=
  (service.Type_ d =? service.Before)%N || (service.Type_ d =? service.After)%N.

(** Hooks that never fail. *)
Definition harmless {U : Type} (hooks : list (service.Hook U)) : Prop :=
  forall fn, In fn hooks -> forall u, snd (fn u) = None.

(** The loop of Init: [for _, o := range opts { o(&options) }]. *)
Definition applyAll {U : Type} (os : list (service.Option U))
    (o : service.Options U) : service.Options U :=
  fold_left (fun acc f => f acc) os o.

(** Tracing is configured only when both the sampler and the exporter
    are there. *)
Definition tracingOff {U : Type} (st : service.State U) : Prop :=
  service.Sampler (service.opts (service.self st)) = None
  \/ service.Exporter (service.opts (service.self st)) = None.

(** The state after the registration of a route, nothing else changed. *)
Definition withRoutes {U : Type} (st : service.State U)
    (routes : list service.Route) : service.State U :=
  let s := service.self st in
  service.mkState
    (service.mkService (service.name s) (service.version s) (service.opts s)
       (service.server s) (service.handler s ++ routes)%list
       (service.traceProvider s))
    (service.user st) (service.events st) (service.providers st)
    (service.globalProvider st).

(** What a registration is filed under. *)
Definition routeKey (rt : service.Route) : string * string :=
  (service.routeMethod rt, service.routePattern rt).

(** The chain that Endpoints builds for an endpoint when tracing is off. *)
Definition plainRoute (ep : service.Endpoint) : service.Route :=
  service.mkRoute (service.Method ep) (service.URI ep)
    (service.decorateAll (service.HandlerFunc ep) (service.Decorators ep)).

(** ** Proof steps used more than once *)

(** Close a conjunction whose parts are hypotheses or hold by
    computation, without looking inside the parts. *)
Ltac conj_by_hyps :=
  repeat (split; [first [assumption | reflexivity] | ]);
  first [assumption | reflexivity].

(** One direction of an equivalence between the shape of a serve call
    and the emptiness of the two TLS paths. *)
Ltac serve_case :=
  first
    [ intros (c & k & E); discriminate E
    | intros [A B]; congruence
    | intros _; split; assumption
    | intros _; do 2 eexists; reflexivity
    | intros E; discriminate E
    | intros [A|A]; congruence
    | intros _; reflexivity
    | intros _; left; assumption
    | intros _; right; assumption
    | intros c k E; discriminate E
    | intros c k E; inversion E; split; reflexivity ].

(** * Properties *)

(** ** Package server *)

Section ServerFacts.

Context {H : Type}.

Implicit Types (hs : server.HttpServer H) (env : server.Env).

Lemma applyOptions_defaults_fields (o : server.Options) :
  let d := server.defaultShutdownTimeout
             (server.defaultPort (server.defaultHostname o)) in
  server.Hostname d
    = (if server.Hostname o =? "" then "localhost" else server.Hostname o)
  /\ server.Port d = (if (server.Port o <? 0)%Z then 0%Z else server.Port o)
  /\ server.ShutdownTimeout d
     = (if (server.ShutdownTimeout o <=? 0)%Z then 5%Z
        else server.ShutdownTimeout o)
  /\ server.CertificateFile d = server.CertificateFile o
  /\ server.KeyFile d = server.KeyFile o.
Proof.
  destruct o as [hn p cf kf t]; cbn.
  unfold server.defaultShutdownTimeout, server.defaultPort,
    server.defaultHostname; cbn.
  destruct (hn =? ""); cbn; destruct (p <? 0)%Z; cbn;
    destruct (t <=? 0)%Z; cbn; repeat split; reflexivity.
Qed.

Lemma Start_options env hs :
  server.options (snd (server.Start env hs)) = server.options hs.
Proof.
  unfold server.Start. destruct (server.listen env (server.address hs));
    reflexivity.
Qed.




(** *** Stop always comes to an answer *)

Lemma pending_le_length ds : server.pending ds <= length ds.
Proof. unfold server.pending. apply filter_length_le. Qed.

Lemma pending_cons d ds :
  server.pending (d :: ds)
  = match d with server.AtShutdown => S (server.pending ds) | _ => server.pending ds end.
Proof. destruct d; reflexivity. Qed.

Lemma receiveExit_pending : forall ds ds',
  server.receiveExit ds = Some ds' -> server.pending ds' = S (server.pending ds).
Proof.
  induction ds as [|d ds IH]; intros ds' Hr; cbn in Hr; [discriminate|].
  destruct d.
  - inversion Hr; subst. now rewrite !pending_cons.
  - destruct (server.receiveExit ds) as [r|]; [|discriminate].
    inversion Hr; subst. rewrite !pending_cons. now rewrite (IH r eq_refl).
  - destruct (server.receiveExit ds) as [r|]; [|discriminate].
    inversion Hr; subst. rewrite !pending_cons. now rewrite (IH r eq_refl).
  - destruct (server.receiveExit ds) as [r|]; [|discriminate].
    inversion Hr; subst. rewrite !pending_cons. now rewrite (IH r eq_refl).
Qed.

Lemma runShutdown_pending err : forall ds ds',
  server.runShutdown err ds = Some ds' -> server.pending ds = S (server.pending ds').
Proof.
  induction ds as [|d ds IH]; intros ds' Hr; cbn in Hr; [discriminate|].
  destruct d.
  - destruct (server.runShutdown err ds) as [r|]; [|discriminate].
    inversion Hr; subst. rewrite !pending_cons. now rewrite (IH r eq_refl).
  - inversion Hr; subst. now rewrite !pending_cons.
  - destruct (server.runShutdown err ds) as [r|]; [|discriminate].
    inversion Hr; subst. rewrite !pending_cons. now rewrite (IH r eq_refl).
  - destruct (server.runShutdown err ds) as [r|]; [|discriminate].
    inversion Hr; subst. rewrite !pending_cons. now rewrite (IH r eq_refl).
Qed.

Lemma step_distance env (c c' : server.Config H) :
  server.step env c = Some c' -> server.distance c' < server.distance c.
Proof.
  unfold server.step, server.distance. intros Hs.
  destruct (server.caller c).
  - destruct (server.receiveExit _) as [ds|] eqn:Hr; inversion Hs; subst.
    cbn -[server.pending]. rewrite (receiveExit_pending _ _ Hr). lia.
  - destruct (server.runShutdown _ _) as [ds|] eqn:Hr.
    + inversion Hs; subst. cbn -[server.pending].
      rewrite (runShutdown_pending _ _ _ Hr). lia.
    + destruct (server.sendReply _) as [[v ds]|]; inversion Hs; subst;
        cbn -[server.pending]; lia.
  - discriminate.
Qed.

Lemma exec_fuel env : forall fuel (c : server.Config H),
  server.distance c <= fuel -> server.exec fuel env c <> None.
Proof.
  induction fuel as [|fuel IH]; intros c Hd.
  - unfold server.distance in Hd. cbn. destruct (server.caller c); try lia. discriminate.
  - cbn. destruct (server.caller c) eqn:Hc; try discriminate;
      destruct (server.step env c) as [c'|] eqn:Hs; try discriminate;
      apply IH; apply step_distance in Hs; lia.
Qed.

(** The fuel given by Stop is enough: its last branch is dead. *)
Lemma Stop_fuel env hs :
  server.exec (3 + length (server.drains hs)) env
    (server.mkConfig server.AtSendExit
       (server.withRuntime hs (server.srv hs) (server.drains hs)
          (server.journal hs ++ [LogInfo "Stopping server"])%list)) <> None.
Proof.
  apply exec_fuel. unfold server.distance; cbn -[server.pending].
  pose proof (pending_le_length (server.drains hs)). lia.
Qed.

(** *** Stop on a server with one drain goroutine waiting, and with none *)

Lemma Stop_waiting env hs :
  server.drains hs = [server.AtRecvExit] ->
  fst (server.Stop env hs) = Returned None
  /\ server.drains (snd (server.Stop env hs)) = [server.Exited].
Proof.
  destruct hs as [t h a o sv ds j]; cbn. intros ->.
  unfold server.Stop, server.step; cbn. split; reflexivity.
Qed.

Lemma Stop_nobody env hs :
  server.receiveExit (server.drains hs) = None ->
  fst (server.Stop env hs) = Blocks.
Proof.
  destruct hs as [t h a o sv ds j]; cbn. intros Hd.
  unfold server.Stop; cbn. unfold server.step; cbn. now rewrite Hd.
Qed.

Lemma Start_fresh_drains env (h : H) opts l :
  server.listen env (server.address (server.NewHttpServer h opts)) = inr l ->
  server.drains (snd (server.Start env (server.NewHttpServer h opts)))
  = [server.AtRecvExit]
  /\ fst (server.Start env (server.NewHttpServer h opts)) = None.
Proof.
  intros Hl. unfold server.Start. rewrite Hl. split; reflexivity.
Qed.

Lemma Stop_after_Start env env' (h : H) opts l :
  server.listen env (server.address (server.NewHttpServer h opts)) = inr l ->
  fst (server.Stop env' (snd (server.Start env (server.NewHttpServer h opts))))
  = Returned None.
Proof.
  intros Hl. apply Stop_waiting. now apply Start_fresh_drains with (l := l).
Qed.

Lemma Address_nonempty (h : H) opts :
  server.Address (server.NewHttpServer h opts) <> "".
Proof.
  unfold server.Address, server.NewHttpServer; cbn.
  destruct (applyOptions_defaults_fields
              (server.applyOptions opts server.zeroOptions)) as [Hh _].
  cbn in Hh. rewrite Hh.
  destruct (server.Hostname _ =? "") eqn:He; [discriminate|].
  destruct (server.Hostname _); [discriminate He | discriminate].
Qed.

(** *** Construction *)


(** *** Start *)

(** C9. When the bind succeeds, Start launches exactly one serve loop on
    the bound listener, and that loop serves TLS, with the configured
    certificate and key, if and only if both paths are non-empty; with
    either one empty it serves plaintext. *)
Theorem Start_serves_TLS_iff_both_paths env hs l :
  server.listen env (server.address hs) = inr l ->
  exists call,
    server.serving (snd (server.Start env hs)) = (server.serving hs ++ [call])%list
    /\ ((exists c k, call = server.ServeTLS l c k)
        <-> (server.CertificateFile (server.options hs) <> ""
             /\ server.KeyFile (server.options hs) <> ""))
    /\ (call = server.Serve l
        <-> (server.CertificateFile (server.options hs) = ""
             \/ server.KeyFile (server.options hs) = ""))
    /\ (forall c k, call = server.ServeTLS l c k ->
          c = server.CertificateFile (server.options hs)
          /\ k = server.KeyFile (server.options hs)).
Proof.
  intros Hl. unfold server.Start. rewrite Hl. cbn.
  exists (server.serveCall (server.options hs) l). split; [reflexivity|].
  unfold server.serveCall, nonempty.
  destruct (String.eqb_spec (server.CertificateFile (server.options hs)) "")
    as [Ec|Nc];
    destruct (String.eqb_spec (server.KeyFile (server.options hs)) "")
      as [Ek|Nk];
    cbn; (split; [split | split; [split|]]); serve_case.
Qed.

(** *** Address *)

Lemma applyOptions_snoc2 (opts : list server.Option) (f g : server.Option) o :
  server.applyOptions (opts ++ [f; g]) o = g (f (server.applyOptions opts o)).
Proof. unfold server.applyOptions. now rewrite fold_left_app. Qed.

Lemma Address_of_given (h : H) opts :
  let given := server.applyOptions opts server.zeroOptions in
  server.Address (server.NewHttpServer h opts)
  = (if server.Hostname given =? "" then "localhost" else server.Hostname given)
    ++ ":"
    ++ fmt_d (if (server.Port given <? 0)%Z then 0%Z else server.Port given).
Proof.
  intros given.
  destruct (applyOptions_defaults_fields given) as (Hh & Hp & _).
  cbn in Hh, Hp.
  unfold server.Address, server.NewHttpServer; cbn [server.address].
  fold given. now rewrite Hh, Hp.
Qed.

(** C10. Address is defined on a server that has not been started and is
    then the host and the port that the options supplied, after defaults,
    joined by a colon: the hostname given last, "localhost" for none or
    an empty one, and the port given last, 0 for none or a negative one.
    It is never the empty string, and it is "localhost:0" when an
    ephemeral port is asked for. A successful Start replaces it by the
    address of the listener; a failed Start leaves it as it was. *)
Theorem Address_before_and_after_Start (h : H) (opts : list server.Option) env :
  let given := server.applyOptions opts server.zeroOptions in
  let hs := server.NewHttpServer h opts in
  server.Address hs
    = (if server.Hostname given =? "" then "localhost"
       else server.Hostname given)
      ++ ":"
      ++ fmt_d (if (server.Port given <? 0)%Z then 0%Z else server.Port given)
  /\ (forall hn p,
        server.Address
          (server.NewHttpServer h
             (opts ++ [server.optHostname hn; server.optPort p]))
        = (if hn =? "" then "localhost" else hn)
          ++ ":" ++ fmt_d (if (p <? 0)%Z then 0%Z else p))
  /\ server.Address hs
     = server.Hostname (server.options hs) ++ ":"
       ++ fmt_d (server.Port (server.options hs))
  /\ server.Address hs <> ""
  /\ server.Address (server.NewHttpServer h []) = "localhost:0"
  /\ server.Address
       (server.NewHttpServer h [server.optHostname "localhost"; server.optPort (-1)])
     = "localhost:0"
  /\ server.Address
       (server.NewHttpServer h [server.optHostname "example.org"; server.optPort 8080])
     = "example.org:8080"
  /\ server.Address
       (server.NewHttpServer h [server.optPort 8080; server.optPort 9090])
     = "localhost:9090"
  /\ match server.listen env (server.address hs) with
     | inr l =>
         fst (server.Start env hs) = None
         /\ server.Address (snd (server.Start env hs)) = server.Addr l
     | inl e =>
         fst (server.Start env hs) = Some e
         /\ server.Address (snd (server.Start env hs)) = server.Address hs
     end.
Proof.
  intros given hs. split; [apply Address_of_given|].
  split.
  { intros hn p. rewrite Address_of_given, applyOptions_snoc2. reflexivity. }
  split; [reflexivity|]. split; [apply Address_nonempty|].
  split; [reflexivity|]. split; [reflexivity|].
  split; [reflexivity|]. split; [reflexivity|].
  unfold server.Start.
  destruct (server.listen env (server.address hs)); split; reflexivity.
Qed.

End ServerFacts.

Lemma Start_serves_TLS_iff_both_paths_witness :
  server.listen sample.quiet
    (server.address (server.NewHttpServer tt [server.optTLS "cert.pem" ""]))
  = inr sample.listener
  /\ exists call,
       server.serving
         (snd (server.Start sample.quiet
                 (server.NewHttpServer tt [server.optTLS "cert.pem" ""])))
       = [call]
       /\ ((exists c k, call = server.ServeTLS sample.listener c k)
           <-> ("cert.pem" <> "" /\ "" <> ""))
       /\ (call = server.Serve sample.listener <-> ("cert.pem" = "" \/ "" = ""))
       /\ (forall c k, call = server.ServeTLS sample.listener c k ->
             c = "cert.pem" /\ k = "").
Proof.
  split; [reflexivity|].
  apply (Start_serves_TLS_iff_both_paths sample.quiet
           (server.NewHttpServer tt [server.optTLS "cert.pem" ""])
           sample.listener).
  reflexivity.
Defined.

(** *** Stop *)

(** C2, against the code. For every server that Start has just started,
    and whatever the transport's Shutdown answers, Stop comes back only
    after the drain goroutine has replied, and it returns nil: an error
    of the shutdown is written to the log and goes no further. *)
Theorem Stop_drops_drain_error {H : Type} (h : H) (opts : list server.Option)
    (net net' : server.Env) (l : server.Listener) :
  server.listen net (server.address (server.NewHttpServer h opts)) = inr l ->
  let hs := snd (server.Start net (server.NewHttpServer h opts)) in
  fst (server.Stop net' hs) = Returned None
  /\ server.drains (snd (server.Stop net' hs)) = [server.Exited]
  /\ forall m,
       server.shutdown net' (server.drainDeadline (server.options hs))
       = Some (Err m) ->
       In (LogError ("Server Shutdown Failed:" ++ m))
          (server.journal (snd (server.Stop net' hs))).
Proof.
  intros Hl hs.
  destruct (Start_fresh_drains net h opts l Hl) as [Hd _]. fold hs in Hd.
  destruct (Stop_waiting net' hs Hd) as [Hr Hd'].
  split; [exact Hr|]. split; [exact Hd'|].
  intros m Hm. subst hs. revert Hm.
  unfold server.Start. rewrite Hl.
  unfold server.Stop, server.step; cbn -[server.drainDeadline].
  intros Hm. rewrite Hm. cbn -[server.drainDeadline]. auto 6.
Qed.

Lemma Stop_drops_drain_error_witness :
  let hs := snd (server.Start sample.slowDrain
                   (server.NewHttpServer tt [server.optShutdownTimeout 1])) in
  server.listen sample.slowDrain
    (server.address (server.NewHttpServer tt [server.optShutdownTimeout 1]))
  = inr sample.listener
  /\ server.shutdown sample.slowDrain (server.drainDeadline (server.options hs))
     = Some (Err "context deadline exceeded")
  /\ fst (server.Stop sample.slowDrain hs) = Returned None
  /\ In (LogError "Server Shutdown Failed:context deadline exceeded")
        (server.journal (snd (server.Stop sample.slowDrain hs))).
Proof.
  intros hs. split; [reflexivity|]. split; [reflexivity|].
  pose (T := Stop_drops_drain_error tt [server.optShutdownTimeout 1]
               sample.slowDrain sample.slowDrain sample.listener eq_refl).
  split; [exact (proj1 T)|].
  exact (proj2 (proj2 T) "context deadline exceeded" eq_refl).
Defined.

(** The log of that run: the error is there, between the two messages
    of Stop. *)
Example scenario_slow_drain :
  server.journal
    (snd (server.Stop sample.slowDrain
            (snd (server.Start sample.slowDrain
                    (server.NewHttpServer tt [server.optShutdownTimeout 1])))))
  = [LogInfo "Starting server. Listening at http://127.0.0.1:43211";
     LogInfo "Stopping server";
     LogError "Server Shutdown Failed:context deadline exceeded";
     LogInfo "Stopped server."].
Proof. reflexivity. Qed.

(** ** Package service: handlers *)

Section HandlerFacts.

Implicit Types (h f : http.Handler) (ds : list service.EndpointDecorator).

Lemma runAll_app fs gs r x :
  service.runAll (fs ++ gs) r x = service.runAll gs r (service.runAll fs r x).
Proof. unfold service.runAll. apply fold_left_app. Qed.

Lemma decorateAll_cons h d ds :
  service.decorateAll h (d :: ds)
  = service.decorateAll (service.decorateHandler h d) ds.
Proof. reflexivity. Qed.

(** Each decorator wraps the handler built so far, so a Before-decorator
    met later in the sequence runs earlier. *)
Lemma decorateAll_order : forall ds h r x,
  service.decorateAll h ds r x
  = service.runAll (service.afters ds) r
      (h r (service.runAll (rev (service.befores ds)) r x)).
Proof.
  induction ds as [|d ds IH]; intros h r x; [reflexivity|].
  rewrite decorateAll_cons, IH.
  unfold service.befores, service.afters, service.decorateHandler.
  cbn [filter].
  destruct (N.eqb_spec (service.Type_ d) service.Before) as [Eb|Nb].
  - rewrite Eb. cbn [N.eqb service.Before service.After Pos.eqb map rev].
    cbn. now rewrite runAll_app.
  - destruct (N.eqb_spec (service.Type_ d) service.After) as [Ea|Na];
      reflexivity.
Qed.

(** *** The decorator chain *)

(** C1, as the code has it. For an endpoint with decorators
    [B1, B2, A1, A2], B1 and B2 of phase Before and A1 and A2 of phase
    After, around the base handler H, the handler that Endpoints registers
    is the decorator chain (inside the tracing middleware when tracing is
    configured), and the chain runs B2, B1, H, A1, A2: the Before-decorators
    in reverse sequence order before H, the After-decorators in sequence
    order after it. *)
Theorem Endpoints_decorator_order {U : Type} (st : service.State U)
    (nm m uri : string) (h b1 b2 a1 a2 : http.Handler) :
  let ep := service.mkEndpoint nm m uri h
              [service.BeforeDecorator b1; service.BeforeDecorator b2;
               service.AfterDecorator a1; service.AfterDecorator a2] in
  let chain := service.decorateAll h (service.Decorators ep) in
  let s := service.self st in
  (forall r x, chain r x = a2 r (a1 r (h r (b1 r (b2 r x)))))
  /\ service.handler (service.self (snd (service.Endpoints [ep] st)))
     = (service.handler s ++
        [service.mkRoute m uri
           match service.Sampler (service.opts s),
                 service.Exporter (service.opts s) with
           | Some sampler, Some exporter =>
               service.trace chain
                 (sdktrace.mkTracerProvider (service.providers st) sampler
                    exporter [("service.name", service.name s)])
                 (service.name s) nm
           | _, _ => chain
           end])%list.
Proof.
  intros ep chain s. split.
  - intros r x. subst chain ep. cbn [service.Decorators].
    now rewrite decorateAll_order.
  - subst s. destruct st as [[n v o sv rt tp] u evs k g]. cbn.
    unfold service.bind, service.getSelf; cbn.
    destruct (service.Sampler o), (service.Exporter o); reflexivity.
Qed.

(** *** The tracing middleware *)

Lemma trace_serves_rebound_request h tp tn sn r x :
  let span := sdktrace.mkSpan (sdktrace.provId tp) tn sn in
  service.trace h tp tn sn r x
  = http.emit (http.SpanEnd span)
      (h (http.WithContext r (WithSpan (http.Ctx r) span))
         (http.mkExchange (http.w x)
            (http.spans x ++
               [http.SpanStart span (http.Ctx r);
                http.SetAttributes span
                  [("http.method", http.Method r); ("http.url", http.URL r);
                   ("http.target", http.RequestURI r);
                   ("http.host", http.Host r);
                   ("http.scheme", http.Scheme r)]]))).
Proof.
  intros span. unfold service.trace, http.emit; cbn.
  now rewrite <- app_assoc.
Qed.

(** C7, as the code has it. The tracing middleware never writes to the
    response itself: what the wrapped handler writes is what the inner
    handler writes when it is served the request rebound to the
    span-carrying context. For an inner handler whose response does not
    depend on the context of the request, that is exactly the response of
    the unwrapped handler: same header state, same status, same body. *)
Theorem trace_preserves_response h tp tn sn r x :
  let span := sdktrace.mkSpan (sdktrace.provId tp) tn sn in
  (exists recorded,
     http.w (service.trace h tp tn sn r x)
     = http.w (h (http.WithContext r (WithSpan (http.Ctx r) span))
                 (http.mkExchange (http.w x) recorded)))
  /\ (service.contextBlind h ->
      http.w (service.trace h tp tn sn r x) = http.w (h r x)).
Proof.
  intros span. rewrite trace_serves_rebound_request. fold span. cbn.
  split.
  - eexists. reflexivity.
  - intros Hb. apply Hb.
Qed.

End HandlerFacts.

Lemma trace_preserves_response_witness :
  service.contextBlind (sample.say "World")
  /\ http.w (service.trace (sample.say "World") sample.provider "test"
               "getRoot" sample.request sample.fresh)
     = http.w (sample.say "World" sample.request sample.fresh).
Proof.
  assert (Hb : service.contextBlind (sample.say "World"))
    by (intros r ctx x l; reflexivity).
  split; [exact Hb|].
  exact (proj2 (trace_preserves_response (sample.say "World") sample.provider
                  "test" "getRoot" sample.request sample.fresh) Hb).
Defined.

(** C1, as stated, fails. With decorators writing "1", "2" (Before) and
    "a", "b" (After) around a handler writing "H", the registered handler
    answers "21Hab"; the order B1, B2, H, A1, A2 would answer "12Hab". *)
Lemma decorator_order_counterexample :
  let st := snd (service.Endpoints [sample.ordered] (sample.configured [])) in
  exists g,
    service.handler (service.self st) = [service.mkRoute "GET" "/" g]
    /\ http.body (http.w (g sample.request sample.fresh)) = "21Hab"
    /\ g sample.request sample.fresh
       <> service.runAll
            [sample.say "1"; sample.say "2"; sample.say "H";
             sample.say "a"; sample.say "b"]
            sample.request sample.fresh.
Proof.
  eexists. split; [reflexivity|]. split; [reflexivity|].
  cbv. intros E. discriminate E.
Qed.

(** C7, as stated, fails. A handler that answers with the name of the
    span in the context of its request answers "getRoot" under the
    tracing middleware and "no span" without it. *)
Lemma trace_response_counterexample :
  http.body
    (http.w (service.trace sample.spanEcho sample.provider "test" "getRoot"
               sample.request sample.fresh)) = "getRoot"
  /\ http.body (http.w (sample.spanEcho sample.request sample.fresh)) = "no span"
  /\ http.w (service.trace sample.spanEcho sample.provider "test" "getRoot"
               sample.request sample.fresh)
     <> http.w (sample.spanEcho sample.request sample.fresh).
Proof.
  split; [reflexivity|]. split; [reflexivity|].
  cbv. intros E. discriminate E.
Qed.

(** ** Package service: the tracer-provider *)

Section ProviderFacts.

Context {U : Type}.

Implicit Types (st : service.State U).

(** One registration with tracing configured. *)
Lemma Endpoints_cons_traced ep eps st sampler exporter :
  service.Sampler (service.opts (service.self st)) = Some sampler ->
  service.Exporter (service.opts (service.self st)) = Some exporter ->
  let s := service.self st in
  let tp := sdktrace.mkTracerProvider (service.providers st) sampler exporter
              [("service.name", service.name s)] in
  service.Endpoints (ep :: eps) st
  = service.Endpoints eps
      (service.mkState
         (service.mkService (service.name s) (service.version s)
            (service.opts s) (service.server s)
            (service.registerMethod (service.Method ep) (service.URI ep)
               (service.trace
                  (service.decorateAll (service.HandlerFunc ep)
                     (service.Decorators ep))
                  tp (service.name s) (service.Name ep))
               (service.handler s))
            (Some tp))
         (service.user st)
         (service.events st ++ [service.ProviderCreated (service.providers st)])
         (S (service.providers st))
         (Some tp)).
Proof.
  intros Hs He s tp. subst s tp.
  destruct st as [[n v o sv rt t] u evs k g]. cbn in Hs, He |- *.
  unfold service.bind, service.getSelf; cbn. rewrite Hs, He. reflexivity.
Qed.

(** With tracing configured, every endpoint registered constructs a
    provider of its own. *)
Lemma Endpoints_providers : forall eps st sampler exporter,
  service.Sampler (service.opts (service.self st)) = Some sampler ->
  service.Exporter (service.opts (service.self st)) = Some exporter ->
  fst (service.Endpoints eps st) = Returned None
  /\ service.providers (snd (service.Endpoints eps st))
     = service.providers st + length eps
  /\ service.events (snd (service.Endpoints eps st))
     = (service.events st
        ++ map service.ProviderCreated (seq (service.providers st) (length eps)))%list.
Proof.
  induction eps as [|ep eps IH]; intros st sampler exporter Hs He.
  - cbn. rewrite app_nil_r. repeat split. lia.
  - rewrite (Endpoints_cons_traced ep eps st sampler exporter Hs He).
    match goal with
    | |- context [service.Endpoints eps ?st1] =>
        destruct (IH st1 sampler exporter Hs He) as (Hr & Hp & Hev)
    end.
    rewrite Hr, Hp, Hev. cbn [service.providers service.events length seq map].
    rewrite <- app_assoc. repeat split. lia.
Qed.

End ProviderFacts.

(** C3, at the failing input. Tracing is configured and two endpoints are
    registered in one call: two providers are constructed, the handler of
    the first endpoint records its spans with provider 0, and the Service
    keeps provider 1, the only one Stop will shut down. *)
Theorem Endpoints_constructs_a_provider_per_endpoint :
  let st := snd (service.Endpoints [sample.getRoot; sample.ordered]
                   (sample.configured sample.traced)) in
  service.providers st = 2
  /\ service.events st = [service.ProviderCreated 0; service.ProviderCreated 1]
  /\ option_map sdktrace.provId (service.traceProvider (service.self st)) = Some 1
  /\ exists g rest,
       service.handler (service.self st) = service.mkRoute "GET" "/" g :: rest
       /\ http.spans (g sample.request sample.fresh)
          = [http.SpanStart (sdktrace.mkSpan 0 "test" "getRoot") Background;
             http.SetAttributes (sdktrace.mkSpan 0 "test" "getRoot")
               [("http.method", "GET"); ("http.url", "/");
                ("http.target", "/"); ("http.host", "localhost");
                ("http.scheme", "http")];
             http.SpanEnd (sdktrace.mkSpan 0 "test" "getRoot")].
Proof.
  repeat split. do 2 eexists. split; reflexivity.
Qed.

(** ** Package service: lifecycle *)

Section LifecycleFacts.

Context {U : Type}.

Implicit Types (st : service.State U) (hooks : list (service.Hook U)) (u : U).

Lemma passes_nil u : service.passes (@nil (service.Hook U)) u.
Proof. intros j fn Hn. destruct j; discriminate Hn. Qed.

Lemma passes_cons fn hooks u :
  snd (fn u) = None ->
  service.passes hooks (fst (fn u)) ->
  service.passes (fn :: hooks) u.
Proof.
  intros H0 Hp [|j] f Hn; cbn in Hn |- *.
  - inversion Hn; subst. exact H0.
  - apply Hp. exact Hn.
Qed.

Lemma failsAt_here fn hooks u e :
  snd (fn u) = Some e -> service.failsAt (fn :: hooks) u 0 e.
Proof.
  intros H0. split; [apply passes_nil|]. exists fn. split; [reflexivity|].
  exact H0.
Qed.

Lemma failsAt_later fn hooks u k e :
  snd (fn u) = None ->
  service.failsAt hooks (fst (fn u)) k e ->
  service.failsAt (fn :: hooks) u (S k) e.
Proof.
  intros H0 [Hp (f & Hn & Hf)]. split.
  - cbn [firstn]. now apply passes_cons.
  - exists f. split; [exact Hn | exact Hf].
Qed.

Lemma passes_not_failsAt hooks u k e :
  service.passes hooks u -> service.failsAt hooks u k e -> False.
Proof.
  intros Hp [_ (f & Hn & Hf)]. rewrite (Hp k f Hn) in Hf. discriminate Hf.
Qed.

Lemma okCalls_cons p i n :
  service.okCalls p i (S n)
  = service.HookCalled p i None :: service.okCalls p (S i) n.
Proof. reflexivity. Qed.

(** A pass over the hooks always returns, and leaves what [hooksRan]
    says. *)
Lemma runHooks_ran p : forall hooks i st,
  exists res st',
    service.runHooks p i hooks st = (Returned res, st')
    /\ service.hooksRan p i hooks st st' res.
Proof.
  induction hooks as [|fn hooks IH]; intros i st.
  - exists None, st. split; [reflexivity|].
    repeat split. left. repeat split.
    + apply passes_nil.
    + cbn. now rewrite app_nil_r.
  - cbn [service.runHooks]. unfold service.orReturn, service.bind.
    unfold service.callHook at 1.
    destruct (fn (service.user st)) as [u1 res0] eqn:Hf.
    destruct res0 as [e|].
    + eexists (Some e), _. split; [reflexivity|].
      repeat split. right. exists 0, e. repeat split.
      * apply passes_nil.
      * exists fn. split; [reflexivity|]. cbn. now rewrite Hf.
      * cbn. now rewrite Nat.add_0_r.
      * cbn. now rewrite Hf.
    + match goal with
      | |- context [service.runHooks p (S i) hooks ?st1] =>
          destruct (IH (S i) st1) as (res & st' & Hrun & Hs & Hp & Hg & Hcase)
      end.
      exists res, st'. split; [exact Hrun|].
      cbn in Hs, Hp, Hg, Hcase.
      assert (Hfst : fst (fn (service.user st)) = u1) by now rewrite Hf.
      assert (Hsnd : snd (fn (service.user st)) = None) by now rewrite Hf.
      repeat split; try assumption.
      destruct Hcase as [(-> & Hpass & Hev & Hu) | (k & e & -> & Hfail & Hev & Hu)].
      * left. repeat split.
        -- apply passes_cons; [exact Hsnd | now rewrite Hfst].
        -- rewrite Hev, <- app_assoc. reflexivity.
        -- rewrite Hu. cbn. now rewrite Hfst.
      * right. exists (S k), e. repeat split.
        -- cbn [firstn]. apply passes_cons; [exact Hsnd|]. rewrite Hfst. apply Hfail.
        -- destruct Hfail as [_ (f & Hn & Hfe)]. exists f. split; [exact Hn|].
           cbn. now rewrite Hfst.
        -- rewrite Hev, <- app_assoc, okCalls_cons. cbn.
           now rewrite Nat.add_succ_r.
        -- rewrite Hu. cbn. now rewrite Hfst.
Qed.

Lemma startServer_eq env st :
  let s := service.self st in
  let hs := server.NewHttpServer (service.handler s)
              [server.optPort (service.Port (service.opts s));
               server.optTLS (service.CertificateFile (service.opts s))
                 (service.KeyFile (service.opts s))] in
  service.startServer env st
  = (Returned (fst (server.Start (service.net env) hs)),
     service.mkState
       (service.mkService (service.name s) (service.version s)
          (service.opts s) (Some (snd (server.Start (service.net env) hs)))
          (service.handler s) (service.traceProvider s))
       (service.user st)
       (service.events st
        ++ [service.ServerCreated (server.Address hs);
            service.ServerStart (fst (server.Start (service.net env) hs))])
       (service.providers st) (service.globalProvider st)).
Proof.
  intros s hs. subst s hs. destruct st as [[n v o sv rt t] u evs k g].
  unfold service.startServer, service.bind, service.getSelf; cbn.
  destruct (server.Start _ _) as [err hs']; cbn.
  now rewrite <- app_assoc.
Qed.

Lemma watch_eq st :
  service.watch st
  = (Returned None,
     service.mkState (service.self st) (service.user st)
       (service.events st
        ++ (if service.Signal (service.opts (service.self st))
            then [service.SignalsNotified] else [])
        ++ [service.WatcherSpawned])
       (service.providers st) (service.globalProvider st)).
Proof.
  destruct st as [[n v o sv rt t] u evs k g].
  unfold service.watch, service.bind, service.getSelf; cbn.
  destruct (service.Signal o); cbn; [now rewrite <- app_assoc | reflexivity].
Qed.

Lemma Start_eq env st :
  service.Start env st
  = match service.runHooks service.BeforeStartPhase 0
            (service.BeforeStart (service.opts (service.self st))) st with
    | (Returned None, st1) =>
        match service.startServer env st1 with
        | (Returned None, st2) =>
            match service.runHooks service.AfterStartPhase 0
                    (service.AfterStart (service.opts (service.self st))) st2 with
            | (Returned None, st3) => service.watch st3
            | other => other
            end
        | other => other
        end
    | other => other
    end.
Proof.
  unfold service.Start, service.orReturn, service.bind, service.getSelf,
    service.ret.
  destruct (service.runHooks _ _ _ st) as [[[e|]| |m] st1]; try reflexivity.
  destruct (service.startServer env st1) as [[[e|]| |m] st2]; try reflexivity.
  destruct (service.runHooks _ _ _ st2) as [[[e|]| |m] st3]; reflexivity.
Qed.

(** *** Start *)

(** C5. Start calls the BeforeStart hooks in registration order and, at
    the first one that fails, returns its error with no server constructed
    and no later hook called. When they all pass it constructs a fresh
    HttpServer from the configured port and TLS paths, starts it, and
    returns a bind error at once, no AfterStart hook called. When the
    bind succeeds it calls the AfterStart hooks in order with the same
    policy, the server staying started when one of them fails, and then
    spawns the watcher and returns nil. In every case the state of the
    hooks is the effect of exactly the hooks called: nothing is rolled
    back. *)
Theorem Start_fail_fast env st :
  let s := service.self st in
  let o := service.opts s in
  let hs := server.NewHttpServer (service.handler s)
              [server.optPort (service.Port o);
               server.optTLS (service.CertificateFile o) (service.KeyFile o)] in
  let bound := server.Start (service.net env) hs in
  let r := service.Start env st in
  let st' := snd r in
  let u1 := service.applyHooks (service.BeforeStart o) (service.user st) in
  let evs1 :=
    (service.events st
     ++ service.okCalls service.BeforeStartPhase 0 (length (service.BeforeStart o))
     ++ [service.ServerCreated (server.Address hs);
         service.ServerStart (fst bound)])%list in
  (exists k e,
     service.failsAt (service.BeforeStart o) (service.user st) k e
     /\ fst r = Returned (Some e)
     /\ service.events st'
        = (service.events st
           ++ service.okCalls service.BeforeStartPhase 0 k
           ++ [service.HookCalled service.BeforeStartPhase k (Some e)])%list
     /\ service.server (service.self st') = service.server s
     /\ service.user st'
        = service.applyHooks (firstn (S k) (service.BeforeStart o))
            (service.user st))
  \/ (service.passes (service.BeforeStart o) (service.user st)
      /\ service.server (service.self st') = Some (snd bound)
      /\ ((exists e,
             fst bound = Some e
             /\ fst r = Returned (Some e)
             /\ service.events st' = evs1
             /\ service.user st' = u1)
          \/ (fst bound = None
              /\ ((exists k e,
                     service.failsAt (service.AfterStart o) u1 k e
                     /\ fst r = Returned (Some e)
                     /\ service.events st'
                        = (evs1
                           ++ service.okCalls service.AfterStartPhase 0 k
                           ++ [service.HookCalled service.AfterStartPhase k
                                 (Some e)])%list
                     /\ service.user st'
                        = service.applyHooks
                            (firstn (S k) (service.AfterStart o)) u1)
                  \/ (service.passes (service.AfterStart o) u1
                      /\ fst r = Returned None
                      /\ service.events st'
                         = (evs1
                            ++ service.okCalls service.AfterStartPhase 0
                                 (length (service.AfterStart o))
                            ++ (if service.Signal o
                                then [service.SignalsNotified] else [])
                            ++ [service.WatcherSpawned])%list
                      /\ service.user st'
                         = service.applyHooks (service.AfterStart o) u1))))).
Proof.
  intros s o hs bound r st' u1 evs1.
  assert (Hr : r = service.Start env st) by reflexivity.
  rewrite Start_eq in Hr. fold s o in Hr. subst st'. clearbody r.
  destruct (runHooks_ran service.BeforeStartPhase (service.BeforeStart o) 0 st)
    as (res & st1 & Hrun & Hs1 & Hp1 & Hg1 & Hcase1).
  rewrite Hrun in Hr.
  destruct Hcase1 as [(-> & Hpass & Hev & Hu) | (k & e & -> & Hfail & Hev & Hu)].
  2: { left. exists k, e. subst r. cbn. rewrite Hs1. conj_by_hyps. }
  right. split; [exact Hpass|].
  rewrite startServer_eq, Hs1 in Hr. fold s o hs bound in Hr.
  assert (Hevs : (service.events st1
                  ++ [service.ServerCreated (server.Address hs);
                      service.ServerStart (fst bound)])%list = evs1).
  { subst evs1. rewrite Hev, <- app_assoc. reflexivity. }
  rewrite Hevs in Hr.
  destruct (fst bound) as [e|] eqn:Hb.
  { subst r. cbn. split; [reflexivity|]. left. exists e. conj_by_hyps. }
  match type of Hr with
  | context [service.runHooks service.AfterStartPhase 0 _ ?st2] =>
      destruct (runHooks_ran service.AfterStartPhase (service.AfterStart o) 0 st2)
        as (res & st3 & Hrun3 & Hs3 & Hp3 & Hg3 & Hcase3)
  end.
  rewrite Hrun3 in Hr.
  cbn in Hs3, Hp3, Hg3, Hcase3. rewrite Hu in Hcase3. fold u1 in Hcase3.
  destruct Hcase3 as [(-> & Hpass3 & Hev3 & Hu3) | (k & e & -> & Hfail3 & Hev3 & Hu3)].
  - rewrite watch_eq in Hr. subst r. cbn. rewrite Hs3. cbn.
    split; [reflexivity|]. right. split; [reflexivity|]. right. repeat split.
    + exact Hpass3.
    + rewrite Hev3, <- app_assoc. reflexivity.
    + exact Hu3.
  - subst r. cbn. rewrite Hs3. cbn. split; [reflexivity|].
    right. split; [reflexivity|]. left. exists k, e. conj_by_hyps.
Qed.

Implicit Types
  (serverStop : option (server.HttpServer service.Router) ->
                Outcome (option error) * option (server.HttpServer service.Router)).

Lemma stopServer_eq serverStop st :
  let s := service.self st in
  service.stopServer serverStop st
  = (fst (serverStop (service.server s)),
     service.mkState
       (service.mkService (service.name s) (service.version s)
          (service.opts s) (snd (serverStop (service.server s)))
          (service.handler s) (service.traceProvider s))
       (service.user st)
       (service.events st
        ++ [service.ServerStop (fst (serverStop (service.server s)))])
       (service.providers st) (service.globalProvider st)).
Proof.
  intros s. subst s. destruct st as [[n v o sv rt t] u evs k g].
  unfold service.stopServer, service.bind, service.getSelf; cbn.
  destruct (serverStop sv) as [out p]; reflexivity.
Qed.

Lemma shutdownProvider_eq env st :
  let s := service.self st in
  service.shutdownProvider env st
  = match service.traceProvider s with
    | Some tp =>
        let res := service.providerShutdown env tp
                     (service.Context (service.opts s)) in
        (Returned res,
         service.mkState s (service.user st)
           (service.events st
            ++ [service.ProviderShutdown (sdktrace.provId tp)
                  (service.Context (service.opts s)) res])
           (service.providers st) (service.globalProvider st))
    | None => (Returned None, st)
    end.
Proof.
  intros s. subst s. destruct st as [[n v o sv rt t] u evs k g].
  unfold service.shutdownProvider, service.bind, service.getSelf; cbn.
  destruct t; reflexivity.
Qed.

Lemma StopWith_eq serverStop env st :
  service.StopWith serverStop env st
  = match service.runHooks service.BeforeStopPhase 0
            (service.BeforeStop (service.opts (service.self st))) st with
    | (Returned None, st1) =>
        match service.stopServer serverStop st1 with
        | (Returned None, st2) =>
            match service.runHooks service.AfterStopPhase 0
                    (service.AfterStop (service.opts (service.self st))) st2 with
            | (Returned None, st3) => service.shutdownProvider env st3
            | other => other
            end
        | other => other
        end
    | other => other
    end.
Proof.
  unfold service.StopWith, service.orReturn, service.bind, service.getSelf,
    service.ret.
  destruct (service.runHooks _ _ _ st) as [[[e|]| |m] st1]; try reflexivity.
  destruct (service.stopServer serverStop st1) as [[[e|]| |m] st2];
    try reflexivity.
  destruct (service.runHooks _ _ _ st2) as [[[e|]| |m] st3]; reflexivity.
Qed.

(** *** Stop *)

(** Service.Stop is [StopWith] at the Stop of package server. *)
Remark Stop_is_StopWith env st :
  service.Stop env st
  = service.StopWith (server.StopPtr (service.net env)) env st.
Proof. reflexivity. Qed.

(** C6. Stop calls the BeforeStop hooks in registration order and, at
    the first one that fails, returns its error with the server untouched
    and nothing else done. When they all pass it calls Stop on the owned
    server and hands on whatever that call reports other than nil. After
    a nil it calls the AfterStop hooks in order, returning the error of
    the first one that fails. When they all pass it shuts the
    tracer-provider down with the configured context and returns the
    result of that, if a provider was initialized; with no provider it
    returns nil and shuts nothing down. The statement holds for every
    behaviour of the server's Stop. *)
Theorem Stop_sequence serverStop env st :
  let s := service.self st in
  let o := service.opts s in
  let stopped := serverStop (service.server s) in
  let r := service.StopWith serverStop env st in
  let st' := snd r in
  let u1 := service.applyHooks (service.BeforeStop o) (service.user st) in
  let evs1 :=
    (service.events st
     ++ service.okCalls service.BeforeStopPhase 0 (length (service.BeforeStop o))
     ++ [service.ServerStop (fst stopped)])%list in
  let evs2 :=
    (evs1 ++ service.okCalls service.AfterStopPhase 0
               (length (service.AfterStop o)))%list in
  (exists k e,
     service.failsAt (service.BeforeStop o) (service.user st) k e
     /\ fst r = Returned (Some e)
     /\ service.events st'
        = (service.events st
           ++ service.okCalls service.BeforeStopPhase 0 k
           ++ [service.HookCalled service.BeforeStopPhase k (Some e)])%list
     /\ service.server (service.self st') = service.server s
     /\ service.user st'
        = service.applyHooks (firstn (S k) (service.BeforeStop o))
            (service.user st))
  \/ (service.passes (service.BeforeStop o) (service.user st)
      /\ service.server (service.self st') = snd stopped
      /\ ((fst stopped <> Returned None
           /\ fst r = fst stopped
           /\ service.events st' = evs1
           /\ service.user st' = u1)
          \/ (fst stopped = Returned None
              /\ ((exists k e,
                     service.failsAt (service.AfterStop o) u1 k e
                     /\ fst r = Returned (Some e)
                     /\ service.events st'
                        = (evs1
                           ++ service.okCalls service.AfterStopPhase 0 k
                           ++ [service.HookCalled service.AfterStopPhase k
                                 (Some e)])%list
                     /\ service.user st'
                        = service.applyHooks
                            (firstn (S k) (service.AfterStop o)) u1)
                  \/ (service.passes (service.AfterStop o) u1
                      /\ service.user st'
                         = service.applyHooks (service.AfterStop o) u1
                      /\ match service.traceProvider s with
                         | Some tp =>
                             let res := service.providerShutdown env tp
                                          (service.Context o) in
                             fst r = Returned res
                             /\ service.events st'
                                = (evs2
                                   ++ [service.ProviderShutdown
                                         (sdktrace.provId tp)
                                         (service.Context o) res])%list
                         | None =>
                             fst r = Returned None
                             /\ service.events st' = evs2
                         end))))).
Proof.
  intros s o stopped r st' u1 evs1 evs2.
  assert (Hr : r = service.StopWith serverStop env st) by reflexivity.
  rewrite StopWith_eq in Hr. fold s o in Hr. subst st'. clearbody r.
  destruct (runHooks_ran service.BeforeStopPhase (service.BeforeStop o) 0 st)
    as (res & st1 & Hrun & Hs1 & Hp1 & Hg1 & Hcase1).
  rewrite Hrun in Hr.
  destruct Hcase1 as [(-> & Hpass & Hev & Hu) | (k & e & -> & Hfail & Hev & Hu)].
  2: { left. exists k, e. subst r. cbn. rewrite Hs1. conj_by_hyps. }
  right. split; [exact Hpass|].
  rewrite stopServer_eq, Hs1 in Hr. fold s o stopped in Hr.
  assert (Hevs : (service.events st1
                  ++ [service.ServerStop (fst stopped)])%list = evs1).
  { subst evs1. rewrite Hev, <- app_assoc. reflexivity. }
  rewrite Hevs in Hr.
  destruct (fst stopped) as [[e|]| |m] eqn:Hb.
  1, 3, 4: subst r; cbn; split; [reflexivity|]; left;
    split; [discriminate|]; conj_by_hyps.
  match type of Hr with
  | context [service.runHooks service.AfterStopPhase 0 _ ?st2] =>
      destruct (runHooks_ran service.AfterStopPhase (service.AfterStop o) 0 st2)
        as (res & st3 & Hrun3 & Hs3 & Hp3 & Hg3 & Hcase3)
  end.
  rewrite Hrun3 in Hr.
  cbn in Hs3, Hp3, Hg3, Hcase3. rewrite Hu in Hcase3. fold u1 in Hcase3.
  destruct Hcase3 as [(-> & Hpass3 & Hev3 & Hu3) | (k & e & -> & Hfail3 & Hev3 & Hu3)].
  - rewrite shutdownProvider_eq, Hs3 in Hr. cbn in Hr.
    fold s in Hr. destruct (service.traceProvider s) as [tp|] eqn:Htp.
    + subst r. cbn. split; [reflexivity|]. right. split; [reflexivity|].
      right. split; [exact Hpass3|]. split; [exact Hu3|].
      split; [reflexivity|]. rewrite Hev3. reflexivity.
    + subst r. cbn. rewrite Hs3. cbn. split; [reflexivity|].
      right. split; [reflexivity|]. right. split; [exact Hpass3|].
      split; [exact Hu3|]. split; [reflexivity|]. exact Hev3.
  - subst r. cbn. rewrite Hs3. cbn. split; [reflexivity|].
    right. split; [reflexivity|]. left. exists k, e. conj_by_hyps.
Qed.

(** *** Stop outside the running state *)

Lemma runHooks_passes p hooks st :
  service.passes hooks (service.user st) ->
  exists st1,
    service.runHooks p 0 hooks st = (Returned None, st1)
    /\ service.self st1 = service.self st.
Proof.
  intros Hpass.
  destruct (runHooks_ran p hooks 0 st) as (res & st1 & Hrun & Hs & _ & _ & Hcase).
  destruct Hcase as [(-> & _) | (k & e & _ & Hfail & _)].
  - exists st1. split; assumption.
  - destruct (passes_not_failsAt _ _ _ _ Hpass Hfail).
Qed.

Lemma runHooks_self p hooks i st :
  service.self (snd (service.runHooks p i hooks st)) = service.self st.
Proof.
  destruct (runHooks_ran p hooks i st) as (res & st1 & Hrun & Hs & _).
  now rewrite Hrun.
Qed.

(** Past its BeforeStop hooks, Stop leaves the server as the server's
    Stop left it, keeps the options, and reports what the server's Stop
    reported unless that was nil. *)
Lemma StopWith_past_hooks serverStop env st :
  service.passes (service.BeforeStop (service.opts (service.self st)))
    (service.user st) ->
  let stopped := serverStop (service.server (service.self st)) in
  let st' := snd (service.StopWith serverStop env st) in
  service.server (service.self st') = snd stopped
  /\ service.opts (service.self st') = service.opts (service.self st)
  /\ (fst stopped <> Returned None ->
      fst (service.StopWith serverStop env st) = fst stopped).
Proof.
  intros Hpass stopped st'. subst st'. rewrite StopWith_eq.
  destruct (runHooks_passes service.BeforeStopPhase _ st Hpass)
    as (st1 & Hrun & Hs1).
  rewrite Hrun, stopServer_eq, Hs1. fold stopped.
  destruct (fst stopped) as [[e|]| |m] eqn:Hb;
    try (cbn; repeat split; congruence).
  match goal with
  | |- context [service.runHooks service.AfterStopPhase 0 ?hooks ?st2] =>
      pose proof (runHooks_self service.AfterStopPhase hooks 0 st2) as Hs3;
      destruct (service.runHooks service.AfterStopPhase 0 hooks st2)
        as [[[e|]| |m] st3]
  end; cbn in Hs3;
    try (cbn; rewrite Hs3; cbn; repeat split; congruence).
  rewrite shutdownProvider_eq, Hs3. cbn.
  destruct (service.traceProvider (service.self st)); cbn;
    try rewrite Hs3; cbn; repeat split; congruence.
Qed.

(** When Start returns nil, the Service owns the server that Start
    constructed, the bind succeeded, and the options are unchanged. *)
Lemma Start_nil env st :
  fst (service.Start env st) = Returned None ->
  let s := service.self st in
  let hs := server.NewHttpServer (service.handler s)
              [server.optPort (service.Port (service.opts s));
               server.optTLS (service.CertificateFile (service.opts s))
                 (service.KeyFile (service.opts s))] in
  let st' := snd (service.Start env st) in
  service.server (service.self st')
    = Some (snd (server.Start (service.net env) hs))
  /\ fst (server.Start (service.net env) hs) = None
  /\ service.opts (service.self st') = service.opts s.
Proof.
  intros Hnil s hs st'. subst st'. revert Hnil. rewrite Start_eq.
  pose proof (runHooks_self service.BeforeStartPhase
                (service.BeforeStart (service.opts (service.self st))) 0 st)
    as Hs1.
  destruct (service.runHooks service.BeforeStartPhase 0 _ st)
    as [[[e|]| |m] st1]; cbn in Hs1; try (cbn; discriminate).
  rewrite startServer_eq, Hs1. fold s hs.
  destruct (fst (server.Start (service.net env) hs)) as [e|] eqn:Hb;
    [cbn; discriminate|].
  match goal with
  | |- context [service.runHooks service.AfterStartPhase 0 ?hooks ?st2] =>
      pose proof (runHooks_self service.AfterStartPhase hooks 0 st2) as Hs3;
      destruct (service.runHooks service.AfterStartPhase 0 hooks st2)
        as [[[e|]| |m] st3]
  end; cbn in Hs3; try (cbn; discriminate).
  rewrite watch_eq. cbn. rewrite Hs3. cbn. intros _. repeat split.
Qed.

Lemma server_Start_nil (hs : server.HttpServer service.Router) net :
  fst (server.Start net hs) = None ->
  exists l, server.listen net (server.address hs) = inr l.
Proof.
  unfold server.Start.
  destruct (server.listen net (server.address hs)) as [e|l]; cbn;
    [discriminate | eauto].
Qed.

End LifecycleFacts.

Lemma StopPtr_Some {H : Type} net (hs : server.HttpServer H) :
  server.StopPtr net (Some hs)
  = (fst (server.Stop net hs), Some (snd (server.Stop net hs))).
Proof. unfold server.StopPtr. now destruct (server.Stop net hs). Qed.

Lemma passes_count u : service.passes [sample.count] u.
Proof.
  intros [|[|j]] fn Hn; cbn in Hn; inversion Hn; reflexivity.
Qed.

(** C4, as the code has it. Neither type keeps track of whether it is
    running, so Stop outside the running state does not come back with an
    error. On an HttpServer that was never started, or that has already
    been stopped, Stop blocks forever on the send to the exit channel: no
    drain goroutine is receiving. On a Service, Stop first runs the
    BeforeStop hooks again; when they pass, it panics on the nil server
    before Start, and blocks forever on a second call after a Start that
    returned nil. *)
Theorem Stop_outside_running :
  (forall (H : Type) (h : H) opts net,
     fst (server.Stop net (server.NewHttpServer h opts)) = Blocks)
  /\ (forall (H : Type) (h : H) opts net net1 net2 l,
        server.listen net (server.address (server.NewHttpServer h opts)) = inr l ->
        let hs1 := snd (server.Start net (server.NewHttpServer h opts)) in
        fst (server.Stop net1 hs1) = Returned None
        /\ fst (server.Stop net2 (snd (server.Stop net1 hs1))) = Blocks)
  /\ (forall (U : Type) (st : service.State U) env,
        service.server (service.self st) = None ->
        service.passes (service.BeforeStop (service.opts (service.self st)))
          (service.user st) ->
        fst (service.Stop env st)
        = Panics "invalid memory address or nil pointer dereference")
  /\ (forall (U : Type) (st : service.State U) env env1 env2,
        fst (service.Start env st) = Returned None ->
        let st1 := snd (service.Start env st) in
        let st2 := snd (service.Stop env1 st1) in
        service.passes (service.BeforeStop (service.opts (service.self st1)))
          (service.user st1) ->
        service.passes (service.BeforeStop (service.opts (service.self st2)))
          (service.user st2) ->
        fst (service.Stop env2 st2) = Blocks).
Proof.
  split; [|split; [|split]].
  - intros H h opts net. apply Stop_nobody. reflexivity.
  - intros H h opts net net1 net2 l Hl hs1.
    destruct (Start_fresh_drains net h opts l Hl) as [Hd _]. fold hs1 in Hd.
    destruct (Stop_waiting net1 hs1 Hd) as [Hr Hd'].
    split; [exact Hr|]. apply Stop_nobody. now rewrite Hd'.
  - intros U st env Hnone Hpass. unfold service.Stop.
    destruct (StopWith_past_hooks (server.StopPtr (service.net env)) env st Hpass)
      as (_ & _ & Hres).
    rewrite Hnone in Hres. cbn in Hres. apply Hres. discriminate.
  - intros U st env env1 env2 Hnil st1 st2 Hp1 Hp2.
    destruct (Start_nil env st Hnil) as (Hsrv & Hb & _). fold st1 in Hsrv.
    destruct (server_Start_nil _ _ Hb) as (l & Hl).
    destruct (Start_fresh_drains _ _ _ l Hl) as [Hd _].
    destruct (StopWith_past_hooks (server.StopPtr (service.net env1)) env1 st1 Hp1)
      as (Hsrv2 & _ & _).
    change (snd (service.StopWith (server.StopPtr (service.net env1)) env1 st1))
      with st2 in Hsrv2.
    rewrite Hsrv, StopPtr_Some in Hsrv2. cbn [snd] in Hsrv2.
    destruct (Stop_waiting (service.net env1) _ Hd) as [_ Hd'].
    destruct (StopWith_past_hooks (server.StopPtr (service.net env2)) env2 st2 Hp2)
      as (_ & _ & Hres).
    rewrite Hsrv2, StopPtr_Some in Hres. cbn [fst] in Hres.
    assert (Hblocks : fst (server.Stop (service.net env2)
                             (snd (server.Stop (service.net env1)
                                (snd (server.Start (service.net env)
                                   (server.NewHttpServer
                                      (service.handler (service.self st))
                                      [server.optPort
                                         (service.Port (service.opts (service.self st)));
                                       server.optTLS
                                         (service.CertificateFile
                                            (service.opts (service.self st)))
                                         (service.KeyFile
                                            (service.opts (service.self st)))]))))))
                      = Blocks).
    { apply Stop_nobody. now rewrite Hd'. }
    unfold service.Stop. rewrite Hres; [exact Hblocks|].
    rewrite Hblocks. discriminate.
Qed.

Lemma Stop_outside_running_witness :
  fst (server.Stop sample.quiet (server.NewHttpServer tt [])) = Blocks
  /\ (fst (server.Stop sample.quiet
             (snd (server.Start sample.quiet (server.NewHttpServer tt []))))
      = Returned None
      /\ fst (server.Stop sample.quiet
                (snd (server.Stop sample.quiet
                        (snd (server.Start sample.quiet
                                (server.NewHttpServer tt []))))))
         = Blocks)
  /\ fst (service.Stop (sample.env sample.quiet)
            (sample.configured sample.counting))
     = Panics "invalid memory address or nil pointer dereference"
  /\ fst (service.Stop (sample.env sample.quiet)
            (snd (service.Stop (sample.env sample.quiet)
                    (snd (service.Start (sample.env sample.quiet)
                            (sample.configured sample.counting))))))
     = Blocks.
Proof.
  split; [exact (proj1 Stop_outside_running unit tt [] sample.quiet)|].
  split.
  { apply (proj1 (proj2 Stop_outside_running) unit tt [] sample.quiet
             sample.quiet sample.quiet sample.listener).
    reflexivity. }
  split.
  { apply (proj1 (proj2 (proj2 Stop_outside_running)) nat
             (sample.configured sample.counting) (sample.env sample.quiet)).
    - reflexivity.
    - apply passes_count. }
  apply (proj2 (proj2 (proj2 Stop_outside_running)) nat
           (sample.configured sample.counting) (sample.env sample.quiet)
           (sample.env sample.quiet) (sample.env sample.quiet)).
  - reflexivity.
  - apply passes_count.
  - apply passes_count.
Defined.

(** C4, as stated, fails. Stop on a server that was never started does
    not return, so it returns no error; Stop on a Service that was never
    started panics. *)
Lemma Stop_before_Start_counterexample :
  fst (server.Stop sample.quiet (server.NewHttpServer tt [])) = Blocks
  /\ ~ (exists r, fst (server.Stop sample.quiet (server.NewHttpServer tt []))
                  = Returned r)
  /\ fst (service.Stop (sample.env sample.quiet) (sample.configured []))
     = Panics "invalid memory address or nil pointer dereference"
  /\ ~ (exists r, fst (service.Stop (sample.env sample.quiet)
                         (sample.configured [])) = Returned r).
Proof.
  split; [reflexivity|]. split; [intros [r Hr]; discriminate Hr|].
  split; [reflexivity|]. intros [r Hr]; discriminate Hr.
Qed.

(** ** The scenarios of the test suite *)

(** A Before-decorator writing "Hello ", a handler writing "World" and an
    After-decorator writing "!" and then the status: the client reads
    "Hello World!" with status 200, with and without tracing. *)
Example scenario_decorated_response :
  let plain := snd (service.Endpoints [sample.getRoot] (sample.configured [])) in
  let traced := snd (service.Endpoints [sample.getRoot]
                       (sample.configured sample.traced)) in
  map (fun rt => http.w (service.routeHandler rt sample.request sample.fresh))
      (service.handler (service.self plain))
  = [http.mkResponse true 200 "Hello World!"]
  /\ map (fun rt => http.w (service.routeHandler rt sample.request sample.fresh))
       (service.handler (service.self traced))
     = [http.mkResponse true 200 "Hello World!"].
Proof. split; reflexivity. Qed.

(** One counting hook per phase: after Start and Stop the counter is 4,
    both calls returned nil, and the calls were made in this order. *)
Example scenario_four_hooks :
  let env := sample.env sample.quiet in
  let started := service.Start env (sample.configured sample.counting) in
  let stopped := service.Stop env (snd started) in
  fst started = Returned None
  /\ fst stopped = Returned None
  /\ service.user (snd stopped) = 4
  /\ service.events (snd stopped)
     = [service.HookCalled service.BeforeStartPhase 0 None;
        service.ServerCreated "localhost:0";
        service.ServerStart None;
        service.HookCalled service.AfterStartPhase 0 None;
        service.WatcherSpawned;
        service.HookCalled service.BeforeStopPhase 0 None;
        service.ServerStop (Returned None);
        service.HookCalled service.AfterStopPhase 0 None].
Proof. repeat split. Qed.

(** A failing AfterStart hook: Start returns its error and the server
    stays started, its drain goroutine waiting. *)
Example scenario_failing_AfterStart :
  let env := sample.env sample.quiet in
  let started :=
    service.Start env
      (sample.configured
         [service.optBeforeStart sample.count;
          service.optAfterStart (sample.failing "not ready");
          service.optAfterStart sample.count]) in
  fst started = Returned (Some (Err "not ready"))
  /\ service.user (snd started) = 2
  /\ option_map server.drains (service.server (service.self (snd started)))
     = Some [server.AtRecvExit].
Proof. repeat split. Qed.

(** A port that is taken: Start returns the bind error and no AfterStart
    hook is called. *)
Example scenario_bind_error :
  let started := service.Start (sample.env sample.busy)
                   (sample.configured sample.counting) in
  fst started = Returned (Some (Err "bind: address already in use"))
  /\ service.events (snd started)
     = [service.HookCalled service.BeforeStartPhase 0 None;
        service.ServerCreated "localhost:0";
        service.ServerStart (Some (Err "bind: address already in use"))].
Proof. repeat split. Qed.

(** A server's Stop that reports an error: Stop hands it on, and neither
    the AfterStop hooks nor the provider shutdown take place. *)
Example scenario_server_stop_error :
  let env := sample.env sample.quiet in
  let reporting := fun p : option (server.HttpServer service.Router) =>
                     (Returned (Some (Err "drain failed")), p) in
  let stopped := service.StopWith reporting env
                   (snd (service.Start env (sample.configured sample.counting))) in
  fst stopped = Returned (Some (Err "drain failed"))
  /\ service.user (snd stopped) = 3
  /\ last (service.events (snd stopped)) service.WatcherSpawned
     = service.ServerStop (Returned (Some (Err "drain failed"))).
Proof. repeat split. Qed.

(** * Further properties *)

(** ** HttpServer: how many Stops return *)

Section DrainFacts.

Context {H : Type}.

Implicit Types (hs : server.HttpServer H) (ds pre post : list server.DrainPc).

Lemma quiescent_split : forall ds,
  quiescent ds -> 0 < waiting ds ->
  exists pre post,
    ds = (pre ++ server.AtRecvExit :: post)%list
    /\ Forall (fun d => d = server.Exited) pre
    /\ quiescent post
    /\ waiting ds = S (waiting post).
Proof.
  unfold quiescent, waiting.
  induction ds as [|d ds IH]; cbn; intros Hq Hw; [lia|].
  destruct d; cbn in Hq, Hw |- *; try discriminate.
  - exists [], ds. repeat split; auto.
  - destruct (IH Hq Hw) as (pre & post & -> & Hpre & Hpost & Hn).
    exists (server.Exited :: pre), post. repeat split; auto.
Qed.

Lemma quiescent_none : forall ds,
  quiescent ds -> waiting ds = 0 -> server.receiveExit ds = None.
Proof.
  unfold quiescent, waiting.
  induction ds as [|d ds IH]; cbn; intros Hq Hw; [reflexivity|].
  destruct d; cbn in Hq, Hw |- *; try discriminate.
  now rewrite (IH Hq Hw).
Qed.

Lemma receiveExit_first pre post :
  Forall (fun d => d = server.Exited) pre ->
  server.receiveExit (pre ++ server.AtRecvExit :: post)
  = Some (pre ++ server.AtShutdown :: post)%list.
Proof.
  induction 1 as [|d pre -> _ IH]; cbn; [reflexivity | now rewrite IH].
Qed.

Lemma runShutdown_first err pre post :
  Forall (fun d => d = server.Exited) pre ->
  server.runShutdown err (pre ++ server.AtShutdown :: post)
  = Some (pre ++ server.AtSendReply err :: post)%list.
Proof.
  induction 1 as [|d pre -> _ IH]; cbn; [reflexivity | now rewrite IH].
Qed.

Lemma runShutdown_quiescent err : forall ds,
  quiescent ds -> server.runShutdown err ds = None.
Proof.
  unfold quiescent.
  induction ds as [|d ds IH]; cbn; intros Hq; [reflexivity|].
  destruct d; cbn in Hq; try discriminate; now rewrite (IH Hq).
Qed.

Lemma runShutdown_done err err' pre post :
  Forall (fun d => d = server.Exited) pre ->
  quiescent post ->
  server.runShutdown err (pre ++ server.AtSendReply err' :: post) = None.
Proof.
  intros Hpre Hpost.
  induction Hpre as [|d pre -> _ IH]; cbn.
  - now rewrite (runShutdown_quiescent err post Hpost).
  - now rewrite IH.
Qed.

Lemma sendReply_first err pre post :
  Forall (fun d => d = server.Exited) pre ->
  server.sendReply (pre ++ server.AtSendReply err :: post)
  = Some (None, (pre ++ server.Exited :: post)%list).
Proof.
  induction 1 as [|d pre -> _ IH]; cbn; [reflexivity | now rewrite IH].
Qed.

Lemma quiescent_after pre post :
  Forall (fun d => d = server.Exited) pre ->
  quiescent post ->
  quiescent (pre ++ server.Exited :: post)
  /\ waiting (pre ++ server.Exited :: post) = waiting post.
Proof.
  unfold quiescent, waiting. intros Hpre Hpost.
  induction Hpre as [|d pre -> _ [IHq IHw]]; cbn; auto.
Qed.

(** What Stop does when a drain goroutine is there to meet it. *)
Lemma Stop_meets_eq env hs pre post :
  server.drains hs = (pre ++ server.AtRecvExit :: post)%list ->
  Forall (fun d => d = server.Exited) pre ->
  quiescent post ->
  exists j,
    server.Stop env hs
    = (Returned None,
       server.mkHttpServer (server.closeTransport (server.srv hs))
         (server.handler hs) (server.address hs) (server.options hs)
         (server.serving hs) (pre ++ server.Exited :: post)%list j).
Proof.
  destruct hs as [t h a o sv ds j]; cbn. intros -> Hpre Hpost.
  unfold server.Stop.
  cbn [server.drains server.srv server.journal Nat.add].
  cbn [server.exec server.caller server.runtime].
  unfold server.step at 1.
  cbn [server.caller server.runtime server.withRuntime server.drains
       server.srv server.journal server.options].
  rewrite (receiveExit_first pre post Hpre).
  cbn [server.exec server.caller server.runtime].
  unfold server.step at 1.
  cbn [server.caller server.runtime server.withRuntime server.drains
       server.srv server.journal server.options].
  rewrite (runShutdown_first _ pre post Hpre).
  cbn [server.exec server.caller server.runtime].
  unfold server.step at 1.
  cbn [server.caller server.runtime server.withRuntime server.drains
       server.srv server.journal server.options].
  rewrite (runShutdown_done _ _ pre post Hpre Hpost).
  rewrite (sendReply_first _ pre post Hpre).
  destruct (length (pre ++ server.AtRecvExit :: post)); cbn;
    eexists; reflexivity.
Qed.

Lemma Stop_misses env hs :
  server.receiveExit (server.drains hs) = None ->
  fst (server.Stop env hs) = Blocks
  /\ server.drains (snd (server.Stop env hs)) = server.drains hs.
Proof.
  destruct hs as [t h a o sv ds j]; cbn. intros Hd.
  unfold server.Stop; cbn. unfold server.step; cbn. rewrite Hd. split; reflexivity.
Qed.

Lemma Start_adds_waiting env hs l :
  server.listen env (server.address hs) = inr l ->
  server.drains (snd (server.Start env hs))
  = (server.drains hs ++ [server.AtRecvExit])%list.
Proof. intros Hl. unfold server.Start. now rewrite Hl. Qed.

Lemma quiescent_snoc ds :
  quiescent ds ->
  quiescent (ds ++ [server.AtRecvExit])
  /\ waiting (ds ++ [server.AtRecvExit]) = S (waiting ds).
Proof.
  unfold quiescent, waiting. intros Hq. split.
  - rewrite forallb_app, Hq. reflexivity.
  - rewrite filter_app, length_app. cbn. lia.
Qed.

(** X1. A fresh server has no drain goroutine. Each successful Start
    leaves one more goroutine waiting on the exit channel; Stop returns
    nil exactly when one is waiting, and then uses it up; with none
    waiting it blocks and changes nothing about them. So, between Stops
    that are not overlapping, the Stops that return can never outnumber
    the Starts that succeeded. *)
Theorem Stop_returns_once_per_Start (h : H) (opts : list server.Option) env hs :
  (quiescent (server.drains (server.NewHttpServer h opts))
   /\ waiting (server.drains (server.NewHttpServer h opts)) = 0)
  /\ (quiescent (server.drains hs) ->
      (forall l,
         server.listen env (server.address hs) = inr l ->
         quiescent (server.drains (snd (server.Start env hs)))
         /\ waiting (server.drains (snd (server.Start env hs)))
            = S (waiting (server.drains hs)))
      /\ (waiting (server.drains hs) = 0 ->
          fst (server.Stop env hs) = Blocks
          /\ server.drains (snd (server.Stop env hs)) = server.drains hs)
      /\ (0 < waiting (server.drains hs) ->
          fst (server.Stop env hs) = Returned None
          /\ quiescent (server.drains (snd (server.Stop env hs)))
          /\ S (waiting (server.drains (snd (server.Stop env hs))))
             = waiting (server.drains hs))).
Proof.
  split; [split; reflexivity|].
  intros Hq. split; [|split].
  - intros l Hl. rewrite (Start_adds_waiting env hs l Hl).
    now apply quiescent_snoc.
  - intros Hw. apply Stop_misses. now apply quiescent_none.
  - intros Hw.
    destruct (quiescent_split _ Hq Hw) as (pre & post & Hd & Hpre & Hpost & Hn).
    destruct (Stop_meets_eq env hs pre post Hd Hpre Hpost) as (j & ->).
    cbn [fst snd server.drains].
    destruct (quiescent_after pre post Hpre Hpost) as [Hq' Hw'].
    split; [reflexivity|]. split; [exact Hq'|]. now rewrite Hw', Hn.
Qed.

(** *** What Stop leaves alone *)

Lemma step_frame env (c c' : server.Config H) :
  server.step env c = Some c' ->
  server.address (server.runtime c') = server.address (server.runtime c)
  /\ server.handler (server.runtime c') = server.handler (server.runtime c).
Proof.
  unfold server.step. intros Hs.
  destruct (server.caller c).
  - destruct (server.receiveExit _); inversion Hs; split; reflexivity.
  - destruct (server.runShutdown _ _).
    + inversion Hs; split; reflexivity.
    + destruct (server.sendReply _) as [[v ds]|]; inversion Hs;
        split; reflexivity.
  - discriminate.
Qed.

Lemma exec_frame env fuel : forall (c : server.Config H) o hs',
  server.exec fuel env c = Some (o, hs') ->
  server.address hs' = server.address (server.runtime c)
  /\ server.handler hs' = server.handler (server.runtime c).
Proof.
  induction fuel as [|fuel IH]; intros c o hs' He; cbn in He.
  - destruct (server.caller c);
      try (destruct (server.step env c); [discriminate|]);
      inversion He; split; reflexivity.
  - destruct (server.caller c);
      try (destruct (server.step env c) as [c'|] eqn:Hs;
           [ destruct (IH _ _ _ He) as (Ha & Hh);
             destruct (step_frame env c c' Hs) as (Ha' & Hh');
             split; congruence
           | ]);
      inversion He; split; reflexivity.
Qed.

(** X2. Whatever state the server is in, and whether Stop returns or
    blocks, it writes neither the address nor the handler: Address
    answers the same before and after Stop. *)
Theorem Stop_keeps_the_address env hs :
  server.Address (snd (server.Stop env hs)) = server.Address hs
  /\ server.handler (snd (server.Stop env hs)) = server.handler hs.
Proof.
  unfold server.Stop, server.Address.
  destruct (server.exec _ env _) as [[o hs']|] eqn:He.
  - apply exec_frame in He. exact He.
  - split; reflexivity.
Qed.

(** X3. Start announces, and String reports, the bound address under
    the scheme http in every configuration: also when both TLS paths are
    set and the serve loop it launches serves TLS. *)
Theorem Start_announces_http_under_TLS env hs l :
  server.listen env (server.address hs) = inr l ->
  server.CertificateFile (server.options hs) <> "" ->
  server.KeyFile (server.options hs) <> "" ->
  let hs' := snd (server.Start env hs) in
  server.serving hs'
  = (server.serving hs
     ++ [server.ServeTLS l (server.CertificateFile (server.options hs))
           (server.KeyFile (server.options hs))])%list
  /\ server.String hs' = "http://" ++ server.Addr l
  /\ server.journal hs'
     = (server.journal hs
        ++ [LogInfo ("Starting server. Listening at http://" ++ server.Addr l)])%list.
Proof.
  intros Hl Hc Hk hs'. subst hs'. unfold server.Start. rewrite Hl. cbn.
  unfold server.serveCall, nonempty.
  destruct (String.eqb_spec (server.CertificateFile (server.options hs)) "");
    [contradiction|].
  destruct (String.eqb_spec (server.KeyFile (server.options hs)) "");
    [contradiction|].
  repeat split.
Qed.

End DrainFacts.

Lemma Stop_returns_once_per_Start_witness :
  let q := sample.quiet in
  let hs0 := server.NewHttpServer tt [] in
  let hs2 := snd (server.Start q (snd (server.Start q hs0))) in
  let hs3 := snd (server.Stop q hs2) in
  let hs4 := snd (server.Stop q hs3) in
  quiescent (server.drains hs2)
  /\ waiting (server.drains hs2) = 2
  /\ fst (server.Stop q hs2) = Returned None
  /\ fst (server.Stop q hs3) = Returned None
  /\ waiting (server.drains hs4) = 0
  /\ fst (server.Stop q hs4) = Blocks.
Proof.
  intros q hs0 hs2 hs3 hs4.
  pose (T2 := proj2 (Stop_returns_once_per_Start tt [] q hs2) eq_refl).
  pose (T3 := proj2 (Stop_returns_once_per_Start tt [] q hs3) eq_refl).
  pose (T4 := proj2 (Stop_returns_once_per_Start tt [] q hs4) eq_refl).
  split; [reflexivity|]. split; [reflexivity|].
  split; [exact (proj1 (proj2 (proj2 T2) (le_S 1 1 (le_n 1))))|].
  split; [exact (proj1 (proj2 (proj2 T3) (le_n 1)))|].
  split; [reflexivity|].
  exact (proj1 (proj1 (proj2 T4) eq_refl)).
Defined.

Lemma Start_announces_http_under_TLS_witness :
  let hs := server.NewHttpServer tt [server.optTLS "cert.pem" "key.pem"] in
  let hs' := snd (server.Start sample.quiet hs) in
  server.serving hs' = [server.ServeTLS sample.listener "cert.pem" "key.pem"]
  /\ server.String hs' = "http://127.0.0.1:43211"
  /\ server.journal hs'
     = [LogInfo "Starting server. Listening at http://127.0.0.1:43211"].
Proof.
  intros hs hs'.
  apply (Start_announces_http_under_TLS sample.quiet hs sample.listener).
  - reflexivity.
  - discriminate.
  - discriminate.
Defined.

(** ** Service: options *)

Section OptionFacts.

Context {U : Type}.

Implicit Types (o : service.Options U) (fs : list (service.Hook U))
  (s : service.Service U).

Lemma applyAll_app (os1 os2 : list (service.Option U)) o :
  applyAll (os1 ++ os2) o = applyAll os2 (applyAll os1 o).
Proof. apply fold_left_app. Qed.

Lemma BeforeStart_accumulates : forall fs o,
  applyAll (map service.optBeforeStart fs) o
  = service.mkOptions (service.BeforeStart o ++ fs) (service.BeforeStop o)
      (service.AfterStart o) (service.AfterStop o) (service.Port o)
      (service.CertificateFile o) (service.KeyFile o) (service.Context o)
      (service.Signal o) (service.Sampler o) (service.Exporter o).
Proof.
  induction fs as [|fn fs IH]; intros o.
  - destruct o; cbn. now rewrite app_nil_r.
  - cbn [map]. change (applyAll (?f :: ?l) o) with (applyAll l (f o)).
    rewrite IH. cbn. now rewrite <- app_assoc.
Qed.

Lemma BeforeStop_accumulates : forall fs o,
  applyAll (map service.optBeforeStop fs) o
  = service.mkOptions (service.BeforeStart o) (service.BeforeStop o ++ fs)
      (service.AfterStart o) (service.AfterStop o) (service.Port o)
      (service.CertificateFile o) (service.KeyFile o) (service.Context o)
      (service.Signal o) (service.Sampler o) (service.Exporter o).
Proof.
  induction fs as [|fn fs IH]; intros o.
  - destruct o; cbn. now rewrite app_nil_r.
  - cbn [map]. change (applyAll (?f :: ?l) o) with (applyAll l (f o)).
    rewrite IH. cbn. now rewrite <- app_assoc.
Qed.

Lemma AfterStart_accumulates : forall fs o,
  applyAll (map service.optAfterStart fs) o
  = service.mkOptions (service.BeforeStart o) (service.BeforeStop o)
      (service.AfterStart o ++ fs) (service.AfterStop o) (service.Port o)
      (service.CertificateFile o) (service.KeyFile o) (service.Context o)
      (service.Signal o) (service.Sampler o) (service.Exporter o).
Proof.
  induction fs as [|fn fs IH]; intros o.
  - destruct o; cbn. now rewrite app_nil_r.
  - cbn [map]. change (applyAll (?f :: ?l) o) with (applyAll l (f o)).
    rewrite IH. cbn. now rewrite <- app_assoc.
Qed.

Lemma AfterStop_accumulates : forall fs o,
  applyAll (map service.optAfterStop fs) o
  = service.mkOptions (service.BeforeStart o) (service.BeforeStop o)
      (service.AfterStart o) (service.AfterStop o ++ fs) (service.Port o)
      (service.CertificateFile o) (service.KeyFile o) (service.Context o)
      (service.Signal o) (service.Sampler o) (service.Exporter o).
Proof.
  induction fs as [|fn fs IH]; intros o.
  - destruct o; cbn. now rewrite app_nil_r.
  - cbn [map]. change (applyAll (?f :: ?l) o) with (applyAll l (f o)).
    rewrite IH. cbn. now rewrite <- app_assoc.
Qed.

(** X4. The hook options append. After any options [os], registering
    the hooks [fs] for one phase, one option each, leaves the hooks
    already registered for that phase in place, followed by [fs] in the
    order given, and leaves the lists of the other three phases alone.
    In particular Init given BeforeStart, AfterStart, BeforeStop and
    AfterStop hooks ends with exactly those four lists. *)
Theorem hook_options_accumulate (os : list (service.Option U)) fs
    (bs afs bst ast : list (service.Hook U)) s :
  let o := applyAll os service.zeroOptions in
  (let o' := applyAll (os ++ map service.optBeforeStart fs) service.zeroOptions in
   service.BeforeStart o' = (service.BeforeStart o ++ fs)%list
   /\ service.AfterStart o' = service.AfterStart o
   /\ service.BeforeStop o' = service.BeforeStop o
   /\ service.AfterStop o' = service.AfterStop o)
  /\ (let o' := applyAll (os ++ map service.optAfterStart fs) service.zeroOptions in
      service.AfterStart o' = (service.AfterStart o ++ fs)%list
      /\ service.BeforeStart o' = service.BeforeStart o
      /\ service.BeforeStop o' = service.BeforeStop o
      /\ service.AfterStop o' = service.AfterStop o)
  /\ (let o' := applyAll (os ++ map service.optBeforeStop fs) service.zeroOptions in
      service.BeforeStop o' = (service.BeforeStop o ++ fs)%list
      /\ service.BeforeStart o' = service.BeforeStart o
      /\ service.AfterStart o' = service.AfterStart o
      /\ service.AfterStop o' = service.AfterStop o)
  /\ (let o' := applyAll (os ++ map service.optAfterStop fs) service.zeroOptions in
      service.AfterStop o' = (service.AfterStop o ++ fs)%list
      /\ service.BeforeStart o' = service.BeforeStart o
      /\ service.AfterStart o' = service.AfterStart o
      /\ service.BeforeStop o' = service.BeforeStop o)
  /\ service.opts
       (service.Init
          (map service.optBeforeStart bs ++ map service.optAfterStart afs
           ++ map service.optBeforeStop bst ++ map service.optAfterStop ast) s)
     = service.mkOptions bs bst afs ast 0 "" "" (Some Background) false None None.
Proof.
  intros o. subst o. cbv zeta.
  repeat match goal with |- _ /\ _ => split end.
  1-16: rewrite applyAll_app;
    first [ rewrite BeforeStart_accumulates | rewrite AfterStart_accumulates
          | rewrite BeforeStop_accumulates | rewrite AfterStop_accumulates ];
    reflexivity.
  unfold service.Init. cbn [service.opts].
  change (fold_left (fun acc f => f acc) ?l service.zeroOptions)
    with (applyAll l (@service.zeroOptions U)).
  rewrite !applyAll_app, BeforeStart_accumulates, AfterStart_accumulates,
    BeforeStop_accumulates, AfterStop_accumulates.
  reflexivity.
Qed.

(** X5. After Init the context of the Service is never nil, whatever
    the options were (given none, or given nil, it is the background
    context). Init builds the options from the zero value each time: a
    second Init throws away what the first registered, and neither
    touches the name, the router, the owned server or the provider. *)
Theorem Init_resets (os1 os2 : list (service.Option U)) s :
  service.Context (service.opts (service.Init os2 s)) <> None
  /\ service.Init os2 (service.Init os1 s) = service.Init os2 s
  /\ service.opts (service.Init [] s)
     = service.mkOptions [] [] [] [] 0 "" "" (Some Background) false None None
  /\ service.name (service.Init os2 s) = service.name s
  /\ service.handler (service.Init os2 s) = service.handler s
  /\ service.server (service.Init os2 s) = service.server s
  /\ service.traceProvider (service.Init os2 s) = service.traceProvider s.
Proof.
  split; [|repeat split].
  unfold service.Init. cbn [service.opts].
  change (fold_left (fun acc f => f acc) os2 service.zeroOptions)
    with (applyAll os2 (@service.zeroOptions U)).
  destruct (service.Context (applyAll os2 service.zeroOptions)) eqn:Hc.
  - now rewrite Hc.
  - discriminate.
Qed.

End OptionFacts.

(** ** Service: registration *)

Section RegistrationFacts.

Context {U : Type}.

Implicit Types (st : service.State U) (eps : list service.Endpoint).

Lemma Endpoints_cons_plain ep eps st :
  tracingOff st ->
  service.Endpoints (ep :: eps) st
  = service.Endpoints eps (withRoutes st [plainRoute ep]).
Proof.
  unfold tracingOff, withRoutes.
  destruct st as [[n v o sv rt t] u evs k g]. cbn.
  unfold service.bind, service.getSelf; cbn.
  intros [Hs|He].
  - rewrite Hs. reflexivity.
  - rewrite He. destruct (service.Sampler o); reflexivity.
Qed.




(** What Endpoints does in a state, once every registration has been
    taken by the router. *)
Lemma Endpoints_effect : forall eps st,
  let st' := snd (service.Endpoints eps st) in
  fst (service.Endpoints eps st) = Returned None
  /\ map routeKey (service.handler (service.self st'))
     = (map routeKey (service.handler (service.self st))
        ++ map (fun ep => (service.Method ep, service.URI ep)) eps)%list
  /\ service.opts (service.self st') = service.opts (service.self st)
  /\ service.server (service.self st') = service.server (service.self st)
  /\ service.user st' = service.user st.
Proof.
  induction eps as [|ep eps IH]; intros st; cbv zeta.
  - cbn. rewrite app_nil_r. repeat split.
  - destruct (service.Sampler (service.opts (service.self st)))
      as [sampler|] eqn:Hs;
      [destruct (service.Exporter (service.opts (service.self st)))
         as [exporter|] eqn:He|].
    + rewrite (Endpoints_cons_traced ep eps st sampler exporter Hs He).
      match goal with
      | |- context [service.Endpoints eps ?st1] =>
          destruct (IH st1) as (Hr & Hk & Ho & Hsv & Hu)
      end.
      rewrite Hr, Hk, Ho, Hsv, Hu. cbn.
      unfold service.registerMethod. rewrite map_app, <- app_assoc.
      repeat split.
    + rewrite (Endpoints_cons_plain ep eps st (or_intror He)).
      destruct (IH (withRoutes st [plainRoute ep])) as (Hr & Hk & Ho & Hsv & Hu).
      rewrite Hr, Hk, Ho, Hsv, Hu. cbn.
      rewrite map_app, <- app_assoc. repeat split.
    + rewrite (Endpoints_cons_plain ep eps st (or_introl Hs)).
      destruct (IH (withRoutes st [plainRoute ep])) as (Hr & Hk & Ho & Hsv & Hu).
      rewrite Hr, Hk, Ho, Hsv, Hu. cbn.
      rewrite map_app, <- app_assoc. repeat split.
Qed.

(** X6. Endpoints never returns an error: the only source of one is
    initTracer, which never reports any (a registration that the router
    refuses does not come back as an error either, it panics). Whenever
    Endpoints returns, it has filed one registration per endpoint, in
    the order given, under the method and the URI of the endpoint,
    behind the registrations made before, and it has touched neither the
    options, the owned server nor the state of the hooks. *)
Theorem Endpoints_registers_in_order eps st r :
  fst (service.Endpoints eps st) = Returned r ->
  let st' := snd (service.Endpoints eps st) in
  r = None
  /\ map routeKey (service.handler (service.self st'))
     = (map routeKey (service.handler (service.self st))
        ++ map (fun ep => (service.Method ep, service.URI ep)) eps)%list
  /\ service.opts (service.self st') = service.opts (service.self st)
  /\ service.server (service.self st') = service.server (service.self st)
  /\ service.user st' = service.user st.
Proof.
  intros Hret st'.
  destruct (Endpoints_effect eps st) as (Hr & Hk & Ho & Hsv & Hu).
  rewrite Hr in Hret. inversion Hret; subst r.
  split; [reflexivity|]. split; [exact Hk|]. split; [exact Ho|].
  split; [exact Hsv | exact Hu].
Qed.

End RegistrationFacts.

Lemma Endpoints_registers_in_order_witness :
  let st := sample.configured sample.traced in
  let st' := snd (service.Endpoints [sample.getRoot] st) in
  fst (service.Endpoints [sample.getRoot] st) = Returned None
  /\ map routeKey (service.handler (service.self st')) = [("GET", "/")]
  /\ service.user st' = service.user st.
Proof.
  intros st st'.
  destruct (Endpoints_registers_in_order [sample.getRoot] st None eq_refl)
    as (_ & Hk & _ & _ & Hu).
  split; [reflexivity|]. split; [exact Hk | exact Hu].
Defined.


(** ** Service: handlers, in general *)

Section ChainFacts.

Implicit Types (h : http.Handler) (ds : list service.EndpointDecorator).

Lemma filter_filter_known ds (p : service.EndpointDecorator -> bool) :
  (forall d, p d = true -> knownType d = true) ->
  filter p (filter knownType ds) = filter p ds.
Proof.
  intros Hp. induction ds as [|d ds IH]; [reflexivity|]. cbn.
  destruct (knownType d) eqn:Hk; cbn.
  - now rewrite IH.
  - destruct (p d) eqn:Hd; [|exact IH].
    rewrite (Hp d Hd) in Hk. discriminate.
Qed.

(** X8. For every sequence of decorators, in any interleaving of the
    phases, the composed handler runs the Before-decorators last to
    first, then the base handler, then the After-decorators first to
    last. A decorator whose type is neither Before nor After is never
    run: dropping it from the sequence changes nothing. *)
Theorem decorator_chain_law ds h r x :
  service.decorateAll h ds r x
  = service.runAll (service.afters ds) r
      (h r (service.runAll (rev (service.befores ds)) r x))
  /\ service.decorateAll h ds r x
     = service.decorateAll h (filter knownType ds) r x.
Proof.
  split; [apply decorateAll_order|].
  rewrite !decorateAll_order.
  unfold service.afters, service.befores.
  rewrite !filter_filter_known; [reflexivity| |];
    intros d Hd; unfold knownType; rewrite Hd;
    first [reflexivity | apply orb_true_r].
Qed.

Lemma quiet_decorateHandler h d :
  quiet h -> quiet (service.DecoratorFunc d) ->
  quiet (service.decorateHandler h d).
Proof.
  intros Hh Hd r x. unfold service.decorateHandler.
  destruct (service.Type_ d =? service.Before)%N;
    destruct (service.Type_ d =? service.After)%N;
    repeat first [rewrite Hd | rewrite Hh]; reflexivity.
Qed.

Lemma quiet_decorateAll : forall ds h,
  quiet h -> Forall (fun d => quiet (service.DecoratorFunc d)) ds ->
  quiet (service.decorateAll h ds).
Proof.
  induction ds as [|d ds IH]; intros h Hh Hds; [exact Hh|].
  inversion Hds; subst. rewrite decorateAll_cons.
  apply IH; [now apply quiet_decorateHandler | assumption].
Qed.

(** X9. When the base handler and the decorators of an endpoint ask
    nothing of the tracing backend themselves, serving one request
    through the traced chain records exactly one span: its start from
    the context of the request, its five attributes read from the
    request, and its end, in this order and after whatever was recorded
    before. *)
Theorem traced_chain_records_one_span ds h tp tn sn r x :
  quiet h ->
  Forall (fun d => quiet (service.DecoratorFunc d)) ds ->
  let span := sdktrace.mkSpan (sdktrace.provId tp) tn sn in
  http.spans (service.trace (service.decorateAll h ds) tp tn sn r x)
  = (http.spans x
     ++ [http.SpanStart span (http.Ctx r);
         http.SetAttributes span
           [("http.method", http.Method r); ("http.url", http.URL r);
            ("http.target", http.RequestURI r); ("http.host", http.Host r);
            ("http.scheme", http.Scheme r)];
         http.SpanEnd span])%list.
Proof.
  intros Hh Hds span.
  rewrite trace_serves_rebound_request. fold span.
  unfold http.emit. cbn [http.spans].
  rewrite (quiet_decorateAll ds h Hh Hds). cbn [http.spans].
  now rewrite <- app_assoc.
Qed.

End ChainFacts.

Lemma traced_chain_records_one_span_witness :
  quiet (service.HandlerFunc sample.getRoot)
  /\ Forall (fun d => quiet (service.DecoratorFunc d))
       (service.Decorators sample.getRoot)
  /\ http.spans
       (service.trace
          (service.decorateAll (service.HandlerFunc sample.getRoot)
             (service.Decorators sample.getRoot))
          sample.provider "test" "getRoot" sample.request sample.fresh)
     = [http.SpanStart (sdktrace.mkSpan 0 "test" "getRoot") Background;
        http.SetAttributes (sdktrace.mkSpan 0 "test" "getRoot")
          [("http.method", "GET"); ("http.url", "/"); ("http.target", "/");
           ("http.host", "localhost"); ("http.scheme", "http")];
        http.SpanEnd (sdktrace.mkSpan 0 "test" "getRoot")].
Proof.
  assert (Hh : quiet (service.HandlerFunc sample.getRoot))
    by (intros r x; reflexivity).
  assert (Hds : Forall (fun d => quiet (service.DecoratorFunc d))
                  (service.Decorators sample.getRoot))
    by (repeat constructor).
  split; [exact Hh|]. split; [exact Hds|].
  exact (traced_chain_records_one_span (service.Decorators sample.getRoot)
           (service.HandlerFunc sample.getRoot) sample.provider "test"
           "getRoot" sample.request sample.fresh Hh Hds).
Defined.

(** ** Service: the lifecycle as a whole *)

Section CycleFacts.

Context {U : Type}.

Implicit Types (st : service.State U) (hooks : list (service.Hook U)).

Lemma harmless_cons fn hooks :
  harmless (fn :: hooks) ->
  (forall u, snd (fn u) = None) /\ harmless hooks.
Proof.
  intros Hh. split.
  - apply Hh. now left.
  - intros f Hf. apply Hh. now right.
Qed.

Lemma runHooks_harmless p : forall hooks i st,
  harmless hooks ->
  service.runHooks p i hooks st
  = (Returned None,
     service.mkState (service.self st)
       (service.applyHooks hooks (service.user st))
       (service.events st ++ service.okCalls p i (length hooks))
       (service.providers st) (service.globalProvider st)).
Proof.
  induction hooks as [|fn hooks IH]; intros i st Hh.
  - destruct st; cbn. now rewrite app_nil_r.
  - destruct (harmless_cons fn hooks Hh) as [Hfn Hrest].
    cbn [service.runHooks]. unfold service.orReturn, service.bind.
    unfold service.callHook at 1.
    pose proof (Hfn (service.user st)) as Hnil.
    destruct (fn (service.user st)) as [u1 res] eqn:Hf. cbn in Hnil. subst res.
    rewrite IH by exact Hrest. cbn.
    rewrite Hf, <- app_assoc. reflexivity.
Qed.

Lemma applyHooks_app hooks1 hooks2 (u : U) :
  service.applyHooks (hooks1 ++ hooks2) u
  = service.applyHooks hooks2 (service.applyHooks hooks1 u).
Proof. apply fold_left_app. Qed.

(** Past its BeforeStart hooks, Start leaves the Service owning the
    server it constructed, as the server's Start left it, and reports the
    error of that Start if there was one. *)
Lemma Start_past_hooks env st :
  service.passes (service.BeforeStart (service.opts (service.self st)))
    (service.user st) ->
  let s := service.self st in
  let hs := server.NewHttpServer (service.handler s)
              [server.optPort (service.Port (service.opts s));
               server.optTLS (service.CertificateFile (service.opts s))
                 (service.KeyFile (service.opts s))] in
  let bound := server.Start (service.net env) hs in
  service.server (service.self (snd (service.Start env st))) = Some (snd bound)
  /\ (forall e, fst bound = Some e ->
        fst (service.Start env st) = Returned (Some e)).
Proof.
  intros Hpass s hs bound. rewrite Start_eq.
  destruct (runHooks_passes service.BeforeStartPhase _ st Hpass)
    as (st1 & Hrun & Hs1).
  rewrite Hrun, startServer_eq, Hs1. fold s hs bound.
  destruct (fst bound) as [e|] eqn:Hb.
  { cbn. split; [reflexivity|]. intros e' He'. now inversion He'. }
  split; [|discriminate].
  match goal with
  | |- context [service.runHooks service.AfterStartPhase 0 ?hooks ?st2] =>
      pose proof (runHooks_self service.AfterStartPhase hooks 0 st2) as Hs3;
      destruct (service.runHooks service.AfterStartPhase 0 hooks st2)
        as [[[e|]| |m] st3]
  end; cbn in Hs3; try (cbn; now rewrite Hs3).
  rewrite watch_eq. cbn. now rewrite Hs3.
Qed.

(** X10. A Service configures its server from its port and its TLS
    paths only. Whenever the BeforeStart hooks pass, the server it owns
    after Start has the hostname "localhost" and the shutdown timeout 5,
    the port of the Service (0 for a negative one) and its two TLS paths;
    the address it asks the system for is "localhost:port", and an error
    of that bind is the error Start returns. *)
Theorem Service_binds_localhost env st :
  service.passes (service.BeforeStart (service.opts (service.self st)))
    (service.user st) ->
  let o := service.opts (service.self st) in
  let port := if (service.Port o <? 0)%Z then 0%Z else service.Port o in
  exists hs,
    service.server (service.self (snd (service.Start env st))) = Some hs
    /\ server.options hs
       = server.mkOptions "localhost" port (service.CertificateFile o)
           (service.KeyFile o) 5
    /\ (forall e,
          server.listen (service.net env) ("localhost:" ++ fmt_d port) = inl e ->
          fst (service.Start env st) = Returned (Some e)
          /\ server.Address hs = "localhost:" ++ fmt_d port
          /\ server.drains hs = []).
Proof.
  intros Hpass o port.
  destruct (Start_past_hooks env st Hpass) as [Hsrv Herr].
  eexists. split; [exact Hsrv|].
  assert (Hopts :
    server.options
      (server.NewHttpServer (service.handler (service.self st))
         [server.optPort (service.Port o);
          server.optTLS (service.CertificateFile o) (service.KeyFile o)])
    = server.mkOptions "localhost" port (service.CertificateFile o)
        (service.KeyFile o) 5).
  { subst port. unfold server.NewHttpServer; cbn.
    unfold server.defaultShutdownTimeout, server.defaultPort,
      server.defaultHostname; cbn.
    destruct (service.Port o <? 0)%Z; reflexivity. }
  split.
  - rewrite Start_options. exact Hopts.
  - intros e Hl.
    assert (Haddr :
      server.address
        (server.NewHttpServer (service.handler (service.self st))
           [server.optPort (service.Port o);
            server.optTLS (service.CertificateFile o) (service.KeyFile o)])
      = "localhost:" ++ fmt_d port).
    { change (server.address (server.NewHttpServer ?h ?l))
        with (server.Hostname (server.options (server.NewHttpServer h l))
              ++ ":" ++ fmt_d (server.Port (server.options (server.NewHttpServer h l)))).
      now rewrite Hopts. }
    pose proof (Herr e) as He. unfold server.Start in He. fold o in He.
    rewrite Haddr, Hl in He. cbn [fst] in He.
    split; [apply He; reflexivity|].
    unfold server.Start, server.Address. fold o. rewrite Haddr, Hl.
    cbn [snd]. split; [exact Haddr | reflexivity].
Qed.

(** X12. A Start that failed to bind has already stored the server it
    constructed, and that server has no drain goroutine. A Stop that
    follows, once its BeforeStop hooks have passed, blocks forever on
    the exit channel. *)
Theorem Stop_after_bind_error_blocks env env' st e :
  service.passes (service.BeforeStart (service.opts (service.self st)))
    (service.user st) ->
  server.listen (service.net env)
    (server.address
       (server.NewHttpServer (service.handler (service.self st))
          [server.optPort (service.Port (service.opts (service.self st)));
           server.optTLS
             (service.CertificateFile (service.opts (service.self st)))
             (service.KeyFile (service.opts (service.self st)))]))
  = inl e ->
  let st' := snd (service.Start env st) in
  fst (service.Start env st) = Returned (Some e)
  /\ (service.passes (service.BeforeStop (service.opts (service.self st')))
        (service.user st') ->
      fst (service.Stop env' st') = Blocks).
Proof.
  intros Hpass Hl st'.
  destruct (Start_past_hooks env st Hpass) as [Hsrv Herr]. fold st' in Hsrv.
  unfold server.Start in Hsrv, Herr. rewrite Hl in Hsrv, Herr.
  cbn [fst snd] in Hsrv, Herr.
  split; [now apply Herr|].
  intros Hp.
  destruct (StopWith_past_hooks (server.StopPtr (service.net env')) env' st' Hp)
    as (_ & _ & Hres).
  rewrite Hsrv, StopPtr_Some in Hres. cbn [fst] in Hres.
  unfold service.Stop.
  assert (Hb : fst (server.Stop (service.net env')
                      (server.NewHttpServer (service.handler (service.self st))
                         [server.optPort
                            (service.Port (service.opts (service.self st)));
                          server.optTLS
                            (service.CertificateFile
                               (service.opts (service.self st)))
                            (service.KeyFile (service.opts (service.self st)))]))
               = Blocks)
    by (apply Stop_nobody; reflexivity).
  rewrite Hres; [exact Hb|]. rewrite Hb. discriminate.
Qed.

(** X11. A whole cycle in which the watcher never fires: signal
    handling is off and the context is the background context, so the
    goroutine that Start spawns sleeps for ever and the only Stop is the
    one the caller makes. When, in addition, no hook ever fails and the
    bind succeeds, Start returns nil and the Stop that follows returns
    what the shutdown of the provider returns, nil when there is no
    provider.
    Every hook has then been called exactly once, phase after phase in
    the order BeforeStart, AfterStart, BeforeStop, AfterStop and in
    registration order within a phase, with the server started between
    the first two phases and stopped between the last two; the drain
    goroutine of the server has exited. *)
Theorem Start_then_Stop env env' st l :
  let s := service.self st in
  let o := service.opts s in
  let hs := server.NewHttpServer (service.handler s)
              [server.optPort (service.Port o);
               server.optTLS (service.CertificateFile o) (service.KeyFile o)] in
  harmless (service.BeforeStart o) ->
  harmless (service.AfterStart o) ->
  harmless (service.BeforeStop o) ->
  harmless (service.AfterStop o) ->
  service.Signal o = false ->
  service.Context o = Some Background ->
  server.listen (service.net env) (server.address hs) = inr l ->
  let started := service.Start env st in
  let stopped := service.Stop env' (snd started) in
  fst started = Returned None
  /\ fst stopped
     = Returned match service.traceProvider s with
                | Some tp => service.providerShutdown env' tp (Some Background)
                | None => None
                end
  /\ service.user (snd stopped)
     = service.applyHooks
         (service.BeforeStart o ++ service.AfterStart o
          ++ service.BeforeStop o ++ service.AfterStop o)
         (service.user st)
  /\ service.events (snd stopped)
     = (service.events st
        ++ service.okCalls service.BeforeStartPhase 0 (length (service.BeforeStart o))
        ++ [service.ServerCreated (server.Address hs); service.ServerStart None]
        ++ service.okCalls service.AfterStartPhase 0 (length (service.AfterStart o))
        ++ [service.WatcherSpawned]
        ++ service.okCalls service.BeforeStopPhase 0 (length (service.BeforeStop o))
        ++ [service.ServerStop (Returned None)]
        ++ service.okCalls service.AfterStopPhase 0 (length (service.AfterStop o))
        ++ match service.traceProvider s with
           | Some tp =>
               [service.ProviderShutdown (sdktrace.provId tp) (Some Background)
                  (service.providerShutdown env' tp (Some Background))]
           | None => []
           end)%list
  /\ option_map server.drains (service.server (service.self (snd stopped)))
     = Some [server.Exited].
Proof.
  intros s o hs Hbs Has Hbst Hast Hsig Hctx Hl started stopped.
  destruct (Start_fresh_drains (service.net env) _ _ l Hl) as [Hd Hnil].
  fold hs in Hd, Hnil.
  eassert (Hstart : service.Start env st = (Returned None, _)).
  { rewrite Start_eq. fold s o.
    rewrite (runHooks_harmless _ _ _ _ Hbs).
    rewrite startServer_eq. cbn [service.self service.user service.events
      service.providers service.globalProvider].
    fold s o hs. rewrite Hnil.
    rewrite (runHooks_harmless _ _ _ _ Has).
    rewrite watch_eq. cbn [service.self service.user service.events
      service.providers service.globalProvider service.opts].
    reflexivity. }
  subst stopped started. rewrite Hstart. cbn [fst snd].
  split; [reflexivity|].
  destruct (Stop_waiting (service.net env') _ Hd) as [Hr Hd'].
  match goal with
  | |- context [service.Stop env' ?st2] =>
      eassert (Hstop : service.Stop env' st2 = _)
  end.
  { unfold service.Stop. rewrite StopWith_eq.
    cbn [service.self service.opts]. fold o.
    rewrite (runHooks_harmless _ _ _ _ Hbst).
    rewrite stopServer_eq.
    cbn [service.self service.user service.events service.providers
         service.globalProvider service.server service.opts service.name
         service.version service.handler service.traceProvider].
    rewrite StopPtr_Some. cbn [fst snd]. rewrite Hr.
    rewrite (runHooks_harmless _ _ _ _ Hast).
    rewrite shutdownProvider_eq.
    cbn [service.self service.user service.events service.providers
         service.globalProvider service.server service.opts service.name
         service.version service.handler service.traceProvider].
    reflexivity. }
  rewrite Hstop. clear Hstop Hstart.
  destruct (service.traceProvider s) as [tp|]; cbn [fst snd service.user
    service.events service.self service.server option_map];
    rewrite ?Hd', ?Hsig, ?Hctx, ?applyHooks_app, ?app_nil_r, <- ?app_assoc;
    repeat split.
Qed.

End CycleFacts.

Lemma harmless_counting :
  harmless [sample.count].
Proof. intros fn [<-|[]] u. reflexivity. Qed.

Lemma Service_binds_localhost_witness :
  let st := sample.configured [service.optPort (-1)] in
  exists hs,
    service.server
      (service.self (snd (service.Start (sample.env sample.busy) st)))
    = Some hs
    /\ server.options hs = server.mkOptions "localhost" 0 "" "" 5
    /\ fst (service.Start (sample.env sample.busy) st)
       = Returned (Some (Err "bind: address already in use"))
    /\ server.Address hs = "localhost:0".
Proof.
  intros st.
  destruct (Service_binds_localhost (sample.env sample.busy) st
              (passes_nil (service.user st)))
    as (hs & Hsrv & Hopts & Hbind).
  exists hs. split; [exact Hsrv|]. split; [exact Hopts|].
  destruct (Hbind (Err "bind: address already in use") eq_refl) as (He & Ha & _).
  split; [exact He | exact Ha].
Defined.

Lemma Stop_after_bind_error_blocks_witness :
  let st := sample.configured sample.counting in
  let st' := snd (service.Start (sample.env sample.busy) st) in
  fst (service.Start (sample.env sample.busy) st)
  = Returned (Some (Err "bind: address already in use"))
  /\ fst (service.Stop (sample.env sample.quiet) st') = Blocks.
Proof.
  intros st st'.
  destruct (Stop_after_bind_error_blocks (sample.env sample.busy)
              (sample.env sample.quiet) st (Err "bind: address already in use")
              (passes_count _) eq_refl) as [He Hb].
  split; [exact He|]. apply Hb. apply passes_count.
Defined.

Lemma Start_then_Stop_witness :
  let env := sample.env sample.quiet in
  let st := sample.configured sample.counting in
  let stopped := service.Stop env (snd (service.Start env st)) in
  fst (service.Start env st) = Returned None
  /\ fst stopped = Returned None
  /\ service.user (snd stopped) = 4.
Proof.
  intros env st stopped.
  destruct (Start_then_Stop env env st sample.listener
              harmless_counting harmless_counting harmless_counting
              harmless_counting eq_refl eq_refl eq_refl) as (Hs & Hr & Hu & _).
  split; [exact Hs|]. split; [exact Hr|]. exact Hu.
Defined.
